(** * manic.repository_git: the git reference-resolution core

    A shallow embedding of [src/manic/repository_git.py] (class
    [GitRepository]) together with the properties of its head-state parser,
    reference classifier, sync evaluator and checkout orchestrator.

    Text is Python 3 [str] restricted to code points below 256, carried by
    [string]; the character classes below follow [str.isspace],
    [str.splitlines] and the [re] module on that range. *)

From Stdlib Require Import Bool List ZArith NArith Lia Ascii String.
Import ListNotations.
Open Scope string_scope.

(** ** Python string primitives used by the source *)
Module Py.

Definition in_range (lo hi n : N) : bool := (N.leb lo n) && (N.leb n hi).

(** [c.isspace()] *)
Definition isspace (c : ascii) : bool :=
  let n := N_of_ascii c in
  in_range 9 13 n || in_range 28 32 n || N.eqb n 133 || N.eqb n 160.

(** [c.isalnum()] *)
Definition isalnum (c : ascii) : bool :=
  let n := N_of_ascii c in
  in_range 48 57 n || in_range 65 90 n || in_range 97 122 n
  || N.eqb n 170 || N.eqb n 178 || N.eqb n 179 || N.eqb n 181
  || N.eqb n 185 || N.eqb n 186 || in_range 188 190 n
  || in_range 192 214 n || in_range 216 246 n || in_range 248 255 n.

(** the line boundaries of [str.splitlines] *)
Definition is_linebreak (c : ascii) : bool :=
  let n := N_of_ascii c in
  in_range 10 13 n || in_range 28 30 n || N.eqb n 133.

Definition CR : ascii := "013"%char.
Definition LF : ascii := "010"%char.
Definition TAB : ascii := "009"%char.

(** the double-quote character, and a one-character string of it *)
Definition DQ : ascii := "034"%char.
Definition dq : string := String DQ EmptyString.

(** truth value of a [str]: non-empty *)
Definition truthy (s : string) : bool :=
  match s with EmptyString => false | String _ _ => true end.

(** [c in chars] for a character [c] *)
Fixpoint mem_char (c : ascii) (chars : string) : bool :=
  match chars with
  | EmptyString => false
  | String d r => Ascii.eqb c d || mem_char c r
  end.

Fixpoint lstrip_by (p : ascii -> bool) (s : string) : string :=
  match s with
  | EmptyString => EmptyString
  | String c r => if p c then lstrip_by p r else s
  end.

Fixpoint rstrip_by (p : ascii -> bool) (s : string) : string :=
  match s with
  | EmptyString => EmptyString
  | String c r =>
      match rstrip_by p r with
      | EmptyString => if p c then EmptyString else String c EmptyString
      | String d t => String c (String d t)
      end
  end.

(** [s.strip()] *)
Definition strip (s : string) : string :=
  rstrip_by isspace (lstrip_by isspace s).

(** [s.strip(chars)] *)
Definition strip_chars (chars : string) (s : string) : string :=
  rstrip_by (fun c => mem_char c chars) (lstrip_by (fun c => mem_char c chars) s).

(** [s.split()]: the maximal runs of non-whitespace characters *)
Fixpoint split (s : string) : list string :=
  match s with
  | EmptyString => []
  | String c r =>
      if isspace c then split r
      else match r with
           | EmptyString => [String c EmptyString]
           | String d _ =>
               if isspace d then String c EmptyString :: split r
               else match split r with
                    | t :: ts => String c t :: ts
                    | [] => [String c EmptyString]
                    end
           end
  end.

(** [s.split(sep)] for a one-character separator *)
Fixpoint split_on (sep : ascii) (s : string) : list string :=
  match s with
  | EmptyString => [EmptyString]
  | String c r =>
      if Ascii.eqb c sep then EmptyString :: split_on sep r
      else match split_on sep r with
           | t :: ts => String c t :: ts
           | [] => [String c EmptyString]
           end
  end.

(** [s.splitlines()]; a carriage return followed by a line feed is one
    boundary *)
Fixpoint splitlines (s : string) : list string :=
  match s with
  | EmptyString => []
  | String c r =>
      if is_linebreak c then
        match r with
        | String d r' =>
            if Ascii.eqb c CR && Ascii.eqb d LF
            then EmptyString :: splitlines r'
            else EmptyString :: splitlines r
        | EmptyString => [EmptyString]
        end
      else match splitlines r with
           | l :: ls => String c l :: ls
           | [] => [String c EmptyString]
           end
  end.

(** [s.startswith(p)] *)
Definition startswith (s p : string) : bool := String.prefix p s.

(** [s.endswith(p)] for a one-character [p] *)
Fixpoint endswith_char (s : string) (c : ascii) : bool :=
  match s with
  | EmptyString => false
  | String d EmptyString => Ascii.eqb d c
  | String _ r => endswith_char r c
  end.

(** [needle in hay] *)
Fixpoint contains (hay needle : string) : bool :=
  String.prefix needle hay ||
  match hay with
  | EmptyString => false
  | String _ r => contains r needle
  end.

(** [s.replace(c, '')] for a one-character [c] *)
Fixpoint remove_char (c : ascii) (s : string) : string :=
  match s with
  | EmptyString => EmptyString
  | String d r => if Ascii.eqb d c then remove_char c r
                  else String d (remove_char c r)
  end.

(** the characters of a string, as the [for] loop over it sees them *)
Fixpoint chars (s : string) : list ascii :=
  match s with
  | EmptyString => []
  | String c r => c :: chars r
  end.

(** [l[-1]] and [l[-2]]; [None] is Python's [IndexError] *)
Definition last1 {A} (l : list A) : option A := nth_error (rev l) 0.
Definition last2 {A} (l : list A) : option A := nth_error (rev l) 1.

(** [os.path.join(a, b)] on POSIX *)
Definition os_path_join (a b : string) : string :=
  if startswith b "/" then b
  else if negb (truthy a) || endswith_char a "/"%char then a ++ b
  else a ++ "/" ++ b.

End Py.

(** ** The fragment of Python's [re] the three patterns need

    Matching is by backtracking with greedy quantifiers, as [re] does it:
    a quantifier first takes as much as it can and gives characters back
    only when what follows fails. *)
Module Re.

Inductive regex : Type :=
| Lit (s : string)              (* literal text *)
| Plus (cls : ascii -> bool)    (* [cls]+ *)
| Opt (r : regex)               (* (?:r)? *)
| Cat (r1 r2 : regex)           (* r1 r2 *)
| Group (r : regex).            (* (r), capturing group 1 *)

(** the match object: only group 1 is ever asked for *)
Record match_obj : Type := { group1 : option string }.

Fixpoint drop (n : nat) (s : string) : string :=
  match n, s with
  | O, _ => s
  | S n', String _ r => drop n' r
  | S _, EmptyString => EmptyString
  end.

Fixpoint take (n : nat) (s : string) : string :=
  match n, s with
  | S n', String c r => String c (take n' r)
  | _, _ => EmptyString
  end.

Section Matcher.
Context {A : Type}.

Fixpoint plus_match (cls : ascii -> bool) (s : string)
         (k : string -> option A) : option A :=
  match s with
  | EmptyString => None
  | String c r =>
      if cls c then
        match plus_match cls r k with
        | Some x => Some x
        | None => k r
        end
      else None
  end.

(** [m r s g k]: match [r] at the head of [s], with group 1 so far [g],
    then continue with [k] on the rest *)
Fixpoint m (r : regex) (s : string) (g : option string)
         (k : string -> option string -> option A) : option A :=
  match r with
  | Lit l =>
      if String.prefix l s then k (drop (String.length l) s) g else None
  | Plus cls => plus_match cls s (fun s' => k s' g)
  | Opt r1 =>
      match m r1 s g k with
      | Some x => Some x
      | None => k s g
      end
  | Cat r1 r2 => m r1 s g (fun s' g' => m r2 s' g' k)
  | Group r1 =>
      m r1 s g (fun s' _ =>
        k s' (Some (take (String.length s - String.length s') s)))
  end.
End Matcher.

(** [pattern.match(s)] *)
Definition match_here (r : regex) (s : string) : option match_obj :=
  m r s None (fun _ g => Some {| group1 := g |}).

(** [pattern.search(s)]: the leftmost position at which the pattern matches *)
Fixpoint search (r : regex) (s : string) : option match_obj :=
  match match_here r s with
  | Some mo => Some mo
  | None =>
      match s with
      | EmptyString => None
      | String _ t => search r t
      end
  end.

(** [\w], [\s] and the bracketed classes of the patterns *)
Definition word (c : ascii) : bool := Py.isalnum c || Ascii.eqb c "_"%char.
Definition space (c : ascii) : bool := Py.isspace c.
Definition refchar (c : ascii) : bool := word c || Py.mem_char c "-./".
Definition aheadchar (c : ascii) : bool :=
  word c || space c || Ascii.eqb c ","%char.

End Re.

(** ** Outcomes, the process state and the command executor *)

(** Python exceptions that nothing in the class catches *)
Inductive pyexn : Type := IndexError | AttributeError | OSError.

(** How a method ends: it returns, it stops in [fatal_error] with a
    message, or an exception escapes. *)
Inductive outcome (A : Type) : Type :=
| Ok (a : A)
| Fatal (msg : string)
| Uncaught (e : pyexn).
Arguments Ok {A} a.
Arguments Fatal {A} msg.
Arguments Uncaught {A} e.

(** The command executor and the file system, over a world [W].
    Commands whose status or output goes to the caller are the class's
    information-gathering calls and leave the world as it is; commands run
    for their side effect may change it. Paths handed to [path_exists] and
    [is_dir] are already joined with the working directory. *)
Class Host (W : Type) : Type := {
  path_exists : W -> string -> bool;
  is_dir : W -> string -> bool;
  query : W -> string -> list string -> Z * string;
  effect : W -> string -> list string -> Z * W
}.

(** What the class imports from [global_constants] and [utils], which are
    not among the sources: the local-path sentinel and the URL helpers. *)
Class Externals : Type := {
  LOCAL_PATH_INDICATOR : string;
  is_remote_url : string -> bool;
  split_remote_url : string -> string;
  expand_local_url : string -> string -> string
}.

(** Modelled from the spec: [EMPTY_STR] of [global_constants], the "empty
    result" of the head-state parser and of an unresolvable current hash. *)
Definition EMPTY_STR : string := EmptyString.

(** The process state a method can read: the working directory and the
    world. *)
Record Proc (W : Type) : Type := mkProc {
  cwd : string;
  world : W
}.
Arguments mkProc {W} _ _.
Arguments cwd {W} _.
Arguments world {W} _.

(** A run: how the method ended, the commands it handed to the executor
    (oldest first) and the process state it left. *)
Record Run (W A : Type) : Type := mkRun {
  result : outcome A;
  cmds : list (list string);
  after : Proc W
}.
Arguments mkRun {W A} _ _ _.
Arguments result {W A} _.
Arguments cmds {W A} _.
Arguments after {W A} _.

Definition M (W A : Type) : Type := Proc W -> Run W A.

Definition ret {W A} (a : A) : M W A := fun p => mkRun (Ok a) [] p.

Definition bind {W A B} (c : M W A) (f : A -> M W B) : M W B :=
  fun p =>
    let r := c p in
    match result r with
    | Ok a =>
        let r' := f a (after r) in
        mkRun (result r') (cmds r ++ cmds r')%list (after r')
    | Fatal msg => mkRun (Fatal msg) (cmds r) (after r)
    | Uncaught e => mkRun (Uncaught e) (cmds r) (after r)
    end.

Definition raise {W A} (e : pyexn) : M W A := fun p => mkRun (Uncaught e) [] p.

(** Modelled from the spec: [fatal_error] of [utils]: "Fatal validation
    errors surface as process termination with a descriptive message". *)
Definition fatal_error {W A} (msg : string) : M W A :=
  fun p => mkRun (Fatal msg) [] p.

Declare Scope py_scope.
Delimit Scope py_scope with py.
Notation "x <- c1 ;; c2" := (bind c1 (fun x => c2))
  (at level 61, c1 at next level, right associativity) : py_scope.
Notation "c1 ;; c2" := (bind c1 (fun _ => c2))
  (at level 61, right associativity) : py_scope.
Open Scope py_scope.

(** [l[i]] for a non-negative [i] *)
Definition index {W A} (l : list A) (i : nat) : M W A :=
  match nth_error l i with
  | Some a => ret a
  | None => raise IndexError
  end.

(** [os.getcwd()] *)
Definition os_getcwd {W} : M W string := fun p => mkRun (Ok (cwd p)) [] p.

(** [os.chdir(path)]: raises when the target is not a directory. The
    working directory is kept as the path that was joined, without
    normalisation; [os.getcwd()] of a process is an absolute path. *)
Definition os_chdir {W} `{Host W} (path : string) : M W unit :=
  fun p =>
    let target := Py.os_path_join (cwd p) path in
    if is_dir (world p) target
    then mkRun (Ok tt) [] (mkProc target (world p))
    else mkRun (Uncaught OSError) [] p.

(** [os.path.exists(path)] *)
Definition os_path_exists {W} `{Host W} (path : string) : M W bool :=
  fun p =>
    mkRun (Ok (path_exists (world p) (Py.os_path_join (cwd p) path))) [] p.

(** [' '.join(cmd)] *)
Definition join_cmd (cmd : list string) : string := String.concat " " cmd.

(** Modelled from the spec: [execute_subprocess] of [utils], the Command
    Executor Port: "given an argv vector, runs it in the current working
    directory, optionally returns captured stdout/stderr text and/or exit
    status"; "exit status 0 = success; nonzero = failure". A command run
    with neither flag is run for its effect, and its failure ends the
    operation. *)
Definition execute_subprocess {W} `{Host W} (cmd : list string)
           (status_to_caller output_to_caller : bool) : M W (Z * string) :=
  fun p =>
    if status_to_caller || output_to_caller then
      mkRun (Ok (query (world p) (cwd p) cmd)) [cmd] p
    else
      let '(status, w) := effect (world p) (cwd p) cmd in
      if Z.eqb status 0
      then mkRun (Ok (status, EmptyString)) [cmd] (mkProc (cwd p) w)
      else mkRun (Fatal ("Process did not run successfully: " ++ join_cmd cmd))
                 [cmd] (mkProc (cwd p) w).

(** ** The data model *)

(** The fields of a repository declaration that [Repository.__init__]
    leaves on the object; an unset field is the empty string. *)
Record GitRepository : Type := {
  _name : string;
  _url : string;
  _tag : string;
  _branch : string;
  _hash : string
}.

(** Modelled from the spec: the states of [ExternalStatus]: "enumeration
    {OK, MODEL_MODIFIED, ERROR, UNKNOWN, DIRTY}"; [DEFAULT] is a field that
    has not been set. *)
Inductive status_code : Type :=
| DEFAULT | STATUS_OK | MODEL_MODIFIED | STATUS_ERROR | UNKNOWN | DIRTY.

(** Modelled from the spec: the status report, "sync state enum,
    current/expected reference names (for display), dirty/clean enum,
    verbose status text blob". *)
Record ExternalStatus : Type := {
  sync_state : status_code;
  clean_state : status_code;
  current_version : string;
  expected_version : string;
  status_output : string
}.

Definition set_sync_state (stat : ExternalStatus) (v : status_code) :=
  {| sync_state := v; clean_state := clean_state stat;
     current_version := current_version stat;
     expected_version := expected_version stat;
     status_output := status_output stat |}.

Definition set_clean_state (stat : ExternalStatus) (v : status_code) :=
  {| sync_state := sync_state stat; clean_state := v;
     current_version := current_version stat;
     expected_version := expected_version stat;
     status_output := status_output stat |}.

Definition set_current_version (stat : ExternalStatus) (v : string) :=
  {| sync_state := sync_state stat; clean_state := clean_state stat;
     current_version := v;
     expected_version := expected_version stat;
     status_output := status_output stat |}.

Definition set_expected_version (stat : ExternalStatus) (v : string) :=
  {| sync_state := sync_state stat; clean_state := clean_state stat;
     current_version := current_version stat;
     expected_version := v;
     status_output := status_output stat |}.

Definition set_status_output (stat : ExternalStatus) (v : string) :=
  {| sync_state := sync_state stat; clean_state := clean_state stat;
     current_version := current_version stat;
     expected_version := expected_version stat;
     status_output := v |}.

(** ** The three patterns *)

(** [\* \((?:[\w]+[\s]+)?detached at ([\w\-./]+)\)] *)
Definition RE_DETACHED_AT : Re.regex :=
  Re.Cat (Re.Lit "* (")
 (Re.Cat (Re.Opt (Re.Cat (Re.Plus Re.word) (Re.Plus Re.space)))
 (Re.Cat (Re.Lit "detached at ")
 (Re.Cat (Re.Group (Re.Plus Re.refchar))
         (Re.Lit ")")))).

(** [\* \((?:[\w]+[\s]+)?detached from [\w\-./]+\)[\s]+([\w]+)] *)
Definition RE_DETACHED_FROM : Re.regex :=
  Re.Cat (Re.Lit "* (")
 (Re.Cat (Re.Opt (Re.Cat (Re.Plus Re.word) (Re.Plus Re.space)))
 (Re.Cat (Re.Lit "detached from ")
 (Re.Cat (Re.Plus Re.refchar)
 (Re.Cat (Re.Lit ")")
 (Re.Cat (Re.Plus Re.space)
         (Re.Group (Re.Plus Re.word))))))).

(** [\[([\w\-./]+)(?::[\s]+[\w\s,]+)?\]] *)
Definition RE_TRACKING : Re.regex :=
  Re.Cat (Re.Lit "[")
 (Re.Cat (Re.Group (Re.Plus Re.refchar))
 (Re.Cat (Re.Opt (Re.Cat (Re.Lit ":")
                 (Re.Cat (Re.Plus Re.space) (Re.Plus Re.aheadchar))))
         (Re.Lit "]"))).

Definition nl : string := String Py.LF EmptyString.

(** ['\nref:\n{0}\ngit_output\n{1}\n'.format(ref, git_output)] *)
Definition dev_error_tail (ref git_output : string) : string :=
  nl ++ "ref:" ++ nl ++ ref ++ nl ++ "git_output" ++ nl ++ git_output ++ nl.

Definition msg_detached_at : string :=
  "DEV_ERROR: regex to detect " ++ Py.dq ++ "detached at" ++ Py.dq
  ++ " head state failed!".

Definition msg_detached_from : string :=
  "DEV_ERROR: regex to detect " ++ Py.dq ++ "detached from" ++ Py.dq
  ++ " head state failed!".

Definition msg_tracking : string :=
  "DEV_ERROR: regex to detect tracking branch failed.".

(** the messages of [_is_unique_tag] *)
Definition msg_is_ok : string := "is ok".

Definition msg_both : string :=
  "is both a branch and a tag. git may checkout the branch "
  ++ "instead of the tag depending on your version of git.".

Definition msg_branch_not_tag : string :=
  "is a branch, and not a tag. If you intended to checkout "
  ++ "a branch, please change the externals description to be "
  ++ "a branch. If you intended to checkout a tag, it does not "
  ++ "exist. Please check the name.".

Definition msg_undetermined : string :=
  "does not appear to be a valid tag, branch or hash! "
  ++ "Please check the name and repository.".

Definition unsafe_characters : string := "!@#$%^&*()[]{}\/,;~".

(** ** The class *)
Section GitRepository.
Context {W : Type} `{HW : Host W} `{X : Externals}.

(** *** system calls to git for information gathering *)

Definition _git_log_hash : M W string :=
  let cmd := ["git"; "log"; "-1"; "--format=" ++ Py.dq ++ "%H" ++ Py.dq] in
  r <- execute_subprocess cmd false true ;;
  ret (Py.strip (snd r)).

Definition _git_branch_vv : M W string :=
  let cmd := ["git"; "branch"; "--verbose"; "--verbose"] in
  r <- execute_subprocess cmd false true ;;
  ret (snd r).

Definition _git_showref_tag (ref : string) : M W Z :=
  let cmd := ["git"; "show-ref"; "--quiet"; "--verify"; "refs/tags/" ++ ref] in
  r <- execute_subprocess cmd true false ;;
  ret (fst r).

Definition _git_showref_branch (ref : string) : M W Z :=
  let cmd := ["git"; "show-ref"; "--quiet"; "--verify"; "refs/heads/" ++ ref] in
  r <- execute_subprocess cmd true false ;;
  ret (fst r).

Definition _git_lsremote_branch (ref remote_name : string) : M W Z :=
  let cmd := ["git"; "ls-remote"; "--exit-code"; "--heads"; remote_name; ref] in
  r <- execute_subprocess cmd true false ;;
  ret (fst r).

Definition _git_revparse_commit (ref : string) : M W (Z * string) :=
  let cmd := ["git"; "rev-parse"; "--quiet"; "--verify"; ref ++ "^" ++ "{commit}"] in
  r <- execute_subprocess cmd true true ;;
  ret (fst r, Py.strip (snd r)).

Definition _git_status_porcelain_v1z : M W string :=
  let cmd := ["git"; "status"; "--untracked-files=no"; "--porcelain"; "-z"] in
  r <- execute_subprocess cmd false true ;;
  ret (snd r).

Definition _git_status_verbose : M W string :=
  let cmd := ["git"; "status"] in
  r <- execute_subprocess cmd false true ;;
  ret (snd r).

Definition _git_remote_verbose : M W string :=
  let cmd := ["git"; "remote"; "--verbose"] in
  r <- execute_subprocess cmd false true ;;
  ret (snd r).

(** *** system calls to git for side effects; [printlog] only writes to
    the log and is left out *)

Definition _git_clone (url repo_dir_name : string) (verbosity : Z) : M W unit :=
  let cmd := ["git"; "clone"; url; repo_dir_name] in
  execute_subprocess cmd false false ;; ret tt.

Definition _git_remote_add (name url : string) : M W unit :=
  let cmd := ["git"; "remote"; "add"; name; url] in
  execute_subprocess cmd false false ;; ret tt.

Definition _git_fetch (remote_name : string) : M W unit :=
  let cmd := ["git"; "fetch"; "--tags"; remote_name] in
  execute_subprocess cmd false false ;; ret tt.

Definition _git_checkout_ref (ref : string) (verbosity : Z) : M W unit :=
  let cmd := ["git"; "checkout"; ref] in
  execute_subprocess cmd false false ;; ret tt.

(** *** internal work functions *)

Definition _clone_repo (self : GitRepository)
           (base_dir_path repo_dir_name : string) (verbosity : Z) : M W unit :=
  cwd <- os_getcwd ;;
  os_chdir base_dir_path ;;
  _git_clone (_url self) repo_dir_name verbosity ;;
  os_chdir cwd.

(** the loop [for line in lines: if line.startswith('*'): ref = line; break]
    with [ref = ''] before it *)
Fixpoint active_line (lines : list string) : string :=
  match lines with
  | [] => EmptyString
  | line :: rest =>
      if Py.startswith line "*" then line else active_line rest
  end.

(** [current_ref = match.group(1)] under [try ... except BaseException]:
    without a match object the attribute lookup fails and the handler
    reports the message *)
Definition group1_or_fatal (mo : option Re.match_obj)
           (msg : string) : M W (option string) :=
  match mo with
  | Some mobj => ret (Re.group1 mobj)
  | None => fatal_error msg
  end.

(** [current_ref.strip()]; a group that took no part in the match is
    [None], which has no [strip] *)
Definition strip_ref (current_ref : option string) : M W string :=
  match current_ref with
  | Some s => ret (Py.strip s)
  | None => raise AttributeError
  end.

Definition _current_ref : M W string :=
  git_output <- _git_branch_vv ;;
  let lines := Py.splitlines git_output in
  let ref := active_line lines in
  current_ref <-
    (if negb (Py.truthy ref) then ret (Some EMPTY_STR)
     else if Py.contains ref "detached at" then
       group1_or_fatal (Re.search RE_DETACHED_AT ref)
         (msg_detached_at ++ dev_error_tail ref git_output)
     else if Py.contains ref "detached from" then
       group1_or_fatal (Re.search RE_DETACHED_FROM ref)
         (msg_detached_from ++ dev_error_tail ref git_output)
     else if Py.contains ref "[" then
       group1_or_fatal (Re.search RE_TRACKING ref)
         (msg_tracking ++ dev_error_tail ref git_output)
     else
       tok <- index (Py.split ref) 1 ;; ret (Some tok)) ;;
  strip_ref current_ref.

(** the loop of [_determine_remote_name] over the lines of the listing,
    with [remote_name = ''] before it *)
Fixpoint scan_remotes (url : string) (lines : list string) : M W string :=
  match lines with
  | [] => ret EmptyString
  | line :: rest =>
      let data := Py.strip line in
      if negb (Py.truthy data) then scan_remotes url rest
      else
        let data := Py.split data in
        d0 <- index data 0 ;;
        let name := Py.strip d0 in
        d1 <- index data 1 ;;
        let url' := Py.strip d1 in
        if String.eqb url url' then ret name
        else scan_remotes url rest
  end.

Definition _determine_remote_name (self : GitRepository) : M W string :=
  git_output <- _git_remote_verbose ;;
  let git_output := Py.splitlines git_output in
  scan_remotes (_url self) git_output.

(** the loop [for unsafe in unsafe_characters:
    base_name = base_name.replace(unsafe, '')] *)
Definition strip_unsafe (base_name : string) : string :=
  fold_left (fun b unsafe => Py.remove_char unsafe b)
            (Py.chars unsafe_characters) base_name.

Definition _create_remote_name (self : GitRepository) : M W string :=
  let url := _url self in
  let url := if is_remote_url url then split_remote_url url
             else expand_local_url url (_name self) in
  let url := Py.split_on "/"%char url in
  match Py.last1 url with
  | None => raise IndexError
  | Some repo_name =>
      match Py.last2 url with
      | None => raise IndexError
      | Some base_name =>
          let base_name := strip_unsafe base_name in
          ret (base_name ++ "_" ++ repo_name)
      end
  end.

Definition _ref_is_tag (ref : string) : M W bool :=
  value <- _git_showref_tag ref ;;
  ret (Z.eqb value 0).

Definition _ref_is_local_branch (ref : string) : M W bool :=
  value <- _git_showref_branch ref ;;
  ret (Z.eqb value 0).

Definition _ref_is_remote_branch (ref remote_name : string) : M W bool :=
  value <- _git_lsremote_branch ref remote_name ;;
  ret (Z.eqb value 0).

(** [remote_name] is [None] or a string; both [None] and the empty string
    are false *)
Definition _ref_is_branch (ref : string) (remote_name : option string)
  : M W bool :=
  remote_branch <-
    (match remote_name with
     | Some rn =>
         if Py.truthy rn then _ref_is_remote_branch ref rn else ret false
     | None => ret false
     end) ;;
  local_branch <- _ref_is_local_branch ref ;;
  ret (local_branch || remote_branch).

Definition _ref_is_commit (ref : string) : M W bool :=
  r <- _git_revparse_commit ref ;;
  ret (Z.eqb (fst r) 0).

Definition _ref_is_hash (ref : string) : M W bool :=
  r <- _git_revparse_commit ref ;;
  let '(status, git_output) := r in
  ret (Z.eqb status 0 && Py.startswith (Py.strip git_output) ref).

Definition _is_unique_tag (ref : string) (remote_name : option string)
  : M W (bool * string) :=
  is_tag <- _ref_is_tag ref ;;
  is_branch <- _ref_is_branch ref remote_name ;;
  is_hash <- _ref_is_hash ref ;;
  if is_tag && negb is_branch then ret (true, msg_is_ok)
  else if is_tag && is_branch then ret (false, msg_both)
  else if negb is_tag && is_branch then ret (false, msg_branch_not_tag)
  else if is_hash then ret (true, msg_is_ok)
  else ret (false, msg_undetermined).

Definition msg_invalid_ref (self : GitRepository) (ref : string) : string :=
  "In repo " ++ Py.dq ++ _name self ++ Py.dq ++ ": reference " ++ Py.dq
  ++ ref ++ Py.dq ++ " does not appear to be a "
  ++ "valid tag, branch or hash! Please verify the reference "
  ++ "name (e.g. spelling), is available from: " ++ _url self ++ " ".

Definition msg_tag (self : GitRepository) (msg : string) : string :=
  "In repo " ++ Py.dq ++ _name self ++ Py.dq ++ ": tag " ++ Py.dq
  ++ _tag self ++ Py.dq ++ " " ++ msg.

Definition _check_for_valid_ref (self : GitRepository) (ref : string)
           (remote_name : option string) : M W bool :=
  is_tag <- _ref_is_tag ref ;;
  is_branch <- _ref_is_branch ref remote_name ;;
  is_hash <- _ref_is_hash ref ;;
  let is_valid := is_tag || is_branch || is_hash in
  (if negb is_valid then fatal_error (msg_invalid_ref self ref)
   else ret tt) ;;
  (if is_tag then
     r <- _is_unique_tag ref remote_name ;;
     let '(is_unique_tag, msg) := r in
     if negb is_unique_tag then fatal_error (msg_tag self msg)
     else ret tt
   else ret tt) ;;
  ret is_valid.

Definition _checkout_local_ref (self : GitRepository) (verbosity : Z)
  : M W unit :=
  let ref := if Py.truthy (_tag self) then _tag self
             else if Py.truthy (_branch self) then _branch self
             else _hash self in
  _check_for_valid_ref self ref None ;;
  _git_checkout_ref ref verbosity.

Definition _checkout_external_ref (self : GitRepository) (verbosity : Z)
  : M W unit :=
  let ref := if Py.truthy (_tag self) then _tag self
             else if Py.truthy (_branch self) then _branch self
             else _hash self in
  remote_name <- _determine_remote_name self ;;
  remote_name <-
    (if negb (Py.truthy remote_name) then
       remote_name <- _create_remote_name self ;;
       _git_remote_add remote_name (_url self) ;;
       ret remote_name
     else ret remote_name) ;;
  _git_fetch remote_name ;;
  _check_for_valid_ref self ref (Some remote_name) ;;
  let ref := if Py.truthy (_branch self) then remote_name ++ "/" ++ ref
             else ref in
  _git_checkout_ref ref verbosity.

Definition _checkout_ref (self : GitRepository) (repo_dir : string)
           (verbosity : Z) : M W unit :=
  cwd <- os_getcwd ;;
  os_chdir repo_dir ;;
  (if String.eqb (Py.strip (_url self)) LOCAL_PATH_INDICATOR
   then _checkout_local_ref self verbosity
   else _checkout_external_ref self verbosity) ;;
  os_chdir cwd.

Definition compare_refs (current_ref expected_ref : string) : status_code :=
  if String.eqb current_ref expected_ref then STATUS_OK else MODEL_MODIFIED.

Definition msg_none_set (self : GitRepository) : string :=
  "In repo " ++ Py.dq ++ _name self ++ Py.dq
  ++ ": none of branch, hash or tag are set".

(** the [if self._branch: ... elif self._hash: ... elif self._tag: ...
    else: fatal_error(msg)] block of [_check_sync_logic] *)
Definition expected_ref_of (self : GitRepository) : M W string :=
  if Py.truthy (_branch self) then
    if String.eqb (_url self) LOCAL_PATH_INDICATOR then ret (_branch self)
    else
      remote_name <- _determine_remote_name self ;;
      if negb (Py.truthy remote_name)
      then ret ("unknown_remote/" ++ _branch self)
      else ret (remote_name ++ "/" ++ _branch self)
  else if Py.truthy (_hash self) then ret (_hash self)
  else if Py.truthy (_tag self) then ret (_tag self)
  else fatal_error (msg_none_set self).

Definition _check_sync_logic (self : GitRepository) (stat : ExternalStatus)
           (repo_dir_path : string) : M W ExternalStatus :=
  cwd <- os_getcwd ;;
  os_chdir repo_dir_path ;;
  current_ref <- _git_log_hash ;;
  let current_ref := Py.strip_chars Py.dq current_ref in
  expected_ref <- expected_ref_of self ;;
  name <- _current_ref ;;
  let stat := set_current_version stat name in
  let stat := set_expected_version stat expected_ref in
  stat <-
    (if String.eqb current_ref EMPTY_STR then ret (set_sync_state stat UNKNOWN)
     else
       r <- _git_revparse_commit expected_ref ;;
       let '(revparse_status, expected_ref_hash) := r in
       if negb (Z.eqb revparse_status 0)
       then ret (set_sync_state stat MODEL_MODIFIED)
       else ret (set_sync_state stat
                   (compare_refs current_ref expected_ref_hash))) ;;
  os_chdir cwd ;;
  ret stat.

Definition _check_sync (self : GitRepository) (stat : ExternalStatus)
           (repo_dir_path : string) : M W ExternalStatus :=
  e <- os_path_exists repo_dir_path ;;
  if negb e then ret (set_sync_state stat STATUS_ERROR)
  else
    let git_dir := Py.os_path_join repo_dir_path ".git" in
    g <- os_path_exists git_dir ;;
    if negb g then ret (set_sync_state stat UNKNOWN)
    else _check_sync_logic self stat repo_dir_path.

Definition _status_v1z_is_dirty (git_output : string) : bool :=
  Py.truthy git_output.

Definition _status_summary (self : GitRepository) (stat : ExternalStatus)
           (repo_dir_path : string) : M W ExternalStatus :=
  cwd <- os_getcwd ;;
  os_chdir repo_dir_path ;;
  git_output <- _git_status_porcelain_v1z ;;
  let is_dirty := _status_v1z_is_dirty git_output in
  let stat := if is_dirty then set_clean_state stat DIRTY
              else set_clean_state stat STATUS_OK in
  out <- _git_status_verbose ;;
  let stat := set_status_output stat out in
  os_chdir cwd ;;
  ret stat.

(** *** public API *)

Definition checkout (self : GitRepository)
           (base_dir_path repo_dir_name : string) (verbosity : Z) : M W unit :=
  let repo_dir_path := Py.os_path_join base_dir_path repo_dir_name in
  e <- os_path_exists repo_dir_path ;;
  (if negb e then _clone_repo self base_dir_path repo_dir_name verbosity
   else ret tt) ;;
  _checkout_ref self repo_dir_path verbosity.

Definition status (self : GitRepository) (stat : ExternalStatus)
           (repo_dir_path : string) : M W ExternalStatus :=
  stat <- _check_sync self stat repo_dir_path ;;
  e <- os_path_exists repo_dir_path ;;
  if e then _status_summary self stat repo_dir_path
  else ret stat.

End GitRepository.

(** ** A scripted host, for running the class on concrete inputs *)

Fixpoint cmd_eqb (a b : list string) : bool :=
  match a, b with
  | [], [] => true
  | x :: a', y :: b' => String.eqb x y && cmd_eqb a' b'
  | _, _ => false
  end.

Fixpoint mem_str (s : string) (l : list string) : bool :=
  match l with
  | [] => false
  | x :: r => String.eqb s x || mem_str s r
  end.

(** The directories and other paths that exist, the answers of the
    information-gathering commands (a command without an entry fails with
    status 1 and no output) and the side-effect commands that fail. *)
Record Script : Type := {
  dirs : list string;
  files : list string;
  answers : list (list string * (Z * string));
  failing : list (list string)
}.

Fixpoint answer_of (cmd : list string)
         (tbl : list (list string * (Z * string))) : Z * string :=
  match tbl with
  | [] => (1%Z, EmptyString)
  | (c, a) :: r => if cmd_eqb cmd c then a else answer_of cmd r
  end.

(** [git clone url name] creates the directory [name] with its [.git]
    inside; the other side-effect commands leave the script as it is. *)
Definition script_effect (w : Script) (dir : string) (cmd : list string)
  : Z * Script :=
  if existsb (cmd_eqb cmd) (failing w) then (1%Z, w)
  else match cmd with
       | [_; "clone"; _; name] =>
           let d := Py.os_path_join dir name in
           (0%Z, {| dirs := d :: dirs w;
                    files := Py.os_path_join d ".git" :: files w;
                    answers := answers w; failing := failing w |})
       | _ => (0%Z, w)
       end.

#[global] Instance script_host : Host Script := {
  path_exists w path := mem_str path (dirs w) || mem_str path (files w);
  is_dir w path := mem_str path (dirs w);
  query w _ cmd := answer_of cmd (answers w);
  effect := script_effect
}.

(** the text after the first [://] of a URL *)
Fixpoint after_scheme (s : string) : option string :=
  if String.prefix "://" s then Some (Re.drop 3 s)
  else match s with
       | EmptyString => None
       | String _ r => after_scheme r
       end.

(** A sample of the helpers: a URL with a scheme is remote and is split
    to what follows the scheme; a local path is taken as it is written
    (what [expand_local_url] returns for an absolute path without shell
    variables); the local-path sentinel is a dot. *)
Definition sample_externals : Externals := {|
  LOCAL_PATH_INDICATOR := ".";
  is_remote_url u := match after_scheme u with Some _ => true | None => false end;
  split_remote_url u := match after_scheme u with Some r => r | None => u end;
  expand_local_url u _ := u
|}.

Definition line (s : string) : string := s ++ nl.
Definition tab : string := String Py.TAB EmptyString.

Definition cmd_branch_vv : list string :=
  ["git"; "branch"; "--verbose"; "--verbose"].
Definition cmd_log_hash : list string :=
  ["git"; "log"; "-1"; "--format=" ++ Py.dq ++ "%H" ++ Py.dq].
Definition cmd_remote_verbose : list string := ["git"; "remote"; "--verbose"].
Definition cmd_revparse (ref : string) : list string :=
  ["git"; "rev-parse"; "--quiet"; "--verify"; ref ++ "^" ++ "{commit}"].
Definition cmd_showref_tag (ref : string) : list string :=
  ["git"; "show-ref"; "--quiet"; "--verify"; "refs/tags/" ++ ref].
Definition cmd_showref_branch (ref : string) : list string :=
  ["git"; "show-ref"; "--quiet"; "--verify"; "refs/heads/" ++ ref].
Definition cmd_lsremote (ref remote_name : string) : list string :=
  ["git"; "ls-remote"; "--exit-code"; "--heads"; remote_name; ref].

(** a working copy at [/work/ext] whose branch listing is [listing] *)
Definition listing_world (listing : string) : Script := {|
  dirs := ["/work"; "/work/ext"];
  files := ["/work/ext/.git"];
  answers := [(cmd_branch_vv, (0%Z, listing))];
  failing := []
|}.

Definition head_of (listing : string) : outcome string :=
  result (_current_ref (mkProc "/work/ext" (listing_world listing))).

(** ** Concrete working copies *)

(** HEAD has moved past [tag1]; the subject of the current commit happens
    to contain the words "detached at" *)
Definition moved_past_tag_line : string :=
  "* (HEAD detached from tag1) 3bcf79f note: detached at sea".

Definition moved_past_tag_listing : string :=
  line moved_past_tag_line
  ++ line "  master                    9b75494 [origin/master] Initialize repository.".

(** an active line that carries the marker and nothing else *)
Definition bare_marker_listing : string :=
  line "*" ++ line "  master 9b75494 [origin/master] Initialize repository.".

Definition stat0 : ExternalStatus := {|
  sync_state := DEFAULT; clean_state := DEFAULT;
  current_version := EmptyString; expected_version := EmptyString;
  status_output := EmptyString
|}.

Definition a_hash : string := "36418b4a1c2d3e4f5a6b7c8d9e0f1a2b3c4d5e6f".
Definition another_hash : string := "9b75494a1c2d3e4f5a6b7c8d9e0f1a2b3c4d5e6f".

(** a declaration with none of branch, tag or hash *)
Definition unset_decl : GitRepository := {|
  _name := "ext"; _url := "https://example/repo.git";
  _tag := EmptyString; _branch := EmptyString; _hash := EmptyString
|}.

(** a working copy at [/work/ext], detached at the tag [v1.0], with the
    remote [origin] bound to [https://example/repo.git]; [origin/master]
    and [v1.0] name the same commit *)
Definition tagged_world : Script := {|
  dirs := ["/work"; "/work/ext"];
  files := ["/work/ext/.git"];
  answers :=
    [ (cmd_log_hash, (0%Z, line (Py.dq ++ a_hash ++ Py.dq)));
      (cmd_branch_vv,
       (0%Z, line "* (HEAD detached at v1.0) 36418b4 Release 1.0"
             ++ line "  master               36418b4 [origin/master] Release 1.0"));
      (cmd_remote_verbose,
       (0%Z, line ("origin" ++ tab ++ "https://example/repo.git (fetch)")
             ++ line ("origin" ++ tab ++ "https://example/repo.git (push)")));
      (cmd_revparse "origin/master", (0%Z, line a_hash));
      (cmd_revparse "v0.9", (0%Z, line another_hash));
      (cmd_revparse "v1.0", (0%Z, line a_hash));
      (cmd_showref_tag "v1.0", (0%Z, EmptyString));
      (cmd_showref_tag "v0.9", (0%Z, EmptyString));
      (cmd_showref_tag "both", (0%Z, EmptyString));
      (cmd_showref_branch "both", (0%Z, EmptyString));
      (cmd_showref_branch "master", (0%Z, EmptyString));
      (cmd_lsremote "master" "origin", (0%Z, EmptyString)) ];
  failing := []
|}.

Definition master_decl : GitRepository := {|
  _name := "ext"; _url := "https://example/repo.git";
  _tag := EmptyString; _branch := "master"; _hash := EmptyString
|}.

Definition old_tag_decl : GitRepository := {|
  _name := "ext"; _url := "https://example/repo.git";
  _tag := "v0.9"; _branch := EmptyString; _hash := EmptyString
|}.

(** declarations that name, as a tag, a reference that is also a branch
    and a reference that is only a branch; the source is the local
    working copy *)
Definition both_decl : GitRepository := {|
  _name := "ext"; _url := ".";
  _tag := "both"; _branch := EmptyString; _hash := EmptyString
|}.


(** a directory [/work/plain] that is not a working copy, and no
    [/work/absent] at all *)
Definition plain_world : Script := {|
  dirs := ["/work"; "/work/plain"];
  files := [];
  answers := [];
  failing := []
|}.

(** a local source whose path has a blank in it, already bound to the
    remote [origin] *)
Definition blank_url : string := "/data/my repos/base/x".

Definition blank_decl : GitRepository := {|
  _name := "ext"; _url := blank_url;
  _tag := EmptyString; _branch := "release"; _hash := EmptyString
|}.

Definition blank_world : Script := {|
  dirs := ["/work"; "/work/ext"];
  files := ["/work/ext/.git"];
  answers :=
    [ (cmd_remote_verbose,
       (0%Z, line ("origin" ++ tab ++ blank_url ++ " (fetch)")
             ++ line ("origin" ++ tab ++ blank_url ++ " (push)")));
      (cmd_lsremote "release" "base_x", (0%Z, EmptyString)) ];
  failing := []
|}.

(** a local source whose last path segment has a semicolon in it *)
Definition semicolon_decl : GitRepository := {|
  _name := "ext"; _url := "/srv/base/re;po";
  _tag := EmptyString; _branch := "release"; _hash := EmptyString
|}.

Definition example_decl : GitRepository := {|
  _name := "ext"; _url := "https://example/repo.git";
  _tag := EmptyString; _branch := "release"; _hash := EmptyString
|}.

(** ** Predicates on runs *)

(** a method that leaves the process state as it found it *)
Definition readonly {W A} (c : M W A) : Prop := forall p, after (c p) = p.

(** a method that leaves the working directory as it found it *)
Definition keeps_cwd {W A} (c : M W A) : Prop :=
  forall p, cwd (after (c p)) = cwd p.

(** the commands that check a reference out and that register a remote *)
Definition is_checkout (cmd : list string) : bool :=
  match cmd with
  | "git" :: "checkout" :: _ => true
  | _ => false
  end.

Definition is_remote_add (cmd : list string) : bool :=
  match cmd with
  | "git" :: "remote" :: "add" :: _ => true
  | _ => false
  end.

Definition returned {A} (o : outcome A) : bool :=
  match o with Ok _ => true | _ => false end.

(** a method all of whose commands satisfy [P] *)
Definition emits {W A} (P : list string -> bool) (c : M W A) : Prop :=
  forall p, forallb P (cmds (c p)) = true.

Definition not_checkout (cmd : list string) : bool := negb (is_checkout cmd).

Definition not_remote_add (cmd : list string) : bool :=
  negb (is_remote_add cmd).

(** a method that, run inside a working copy, ends in the directory
    [home] when it returns and stays where it is when it does not *)
Definition returns_home {W A} (home : string) (c : M W A) : Prop :=
  forall q,
    (returned (result (c q)) = true -> cwd (after (c q)) = home) /\
    (returned (result (c q)) = false -> cwd (after (c q)) = cwd q).

(** the reference that both checkout paths take from the declaration *)
Definition declared_ref (self : GitRepository) : string :=
  if Py.truthy (_tag self) then _tag self
  else if Py.truthy (_branch self) then _branch self
  else _hash self.

(** what a run that switched into [dir] did to the working directory of
    the process [p] it started from: back where it was when the method
    returned, still in the target when it did not *)
Definition switched_into {W A} `{Host W} (p : Proc W) (dir : string)
           (r : Run W A) : Prop :=
  (returned (result r) = true -> cwd (after r) = cwd p) /\
  (returned (result r) = false ->
   is_dir (world p) (Py.os_path_join (cwd p) dir) = true ->
   cwd (after r) = Py.os_path_join (cwd p) dir).

(** how a run ended and what it left, without the commands *)
Definition ends {W A} (r : Run W A) : outcome A * Proc W :=
  (result r, after r).

(** a method whose returned value satisfies [Q] *)
Definition ensures {W A} (c : M W A) (Q : A -> Prop) : Prop :=
  forall p a, result (c p) = Ok a -> Q a.

(** a method that leaves the world as it found it *)
Definition keeps_world {W A} (c : M W A) : Prop :=
  forall p, world (after (c p)) = world p.

Definition cmd_status_porcelain : list string :=
  ["git"; "status"; "--untracked-files=no"; "--porcelain"; "-z"].
Definition cmd_status_verbose : list string := ["git"; "status"].

(** the six queries of the status path, each with the arguments the class
    gives it: the current hash, the listing of the remotes, the branch
    listing, the hash of a reference, the porcelain status and the verbose
    status *)
Definition status_query (cmd : list string) : Prop :=
  cmd = cmd_log_hash \/ cmd = cmd_remote_verbose \/ cmd = cmd_branch_vv
  \/ (exists ref, cmd = cmd_revparse ref)
  \/ cmd = cmd_status_porcelain \/ cmd = cmd_status_verbose.

(** a method all of whose commands satisfy the proposition [P] *)
Definition runs_only {W A} (P : list string -> Prop) (c : M W A) : Prop :=
  forall p, Forall P (cmds (c p)).

(** the commands that change a working copy *)
Definition is_modifying_cmd (cmd : list string) : bool :=
  match cmd with
  | "git" :: "clone" :: _ => true
  | "git" :: "checkout" :: _ => true
  | "git" :: "fetch" :: _ => true
  | "git" :: "remote" :: "add" :: _ => true
  | _ => false
  end.

(** the commands that need a remote: listing or adding remotes, fetching,
    asking a remote for its heads *)
Definition is_remote_cmd (cmd : list string) : bool :=
  match cmd with
  | "git" :: "remote" :: _ => true
  | "git" :: "fetch" :: _ => true
  | "git" :: "ls-remote" :: _ => true
  | _ => false
  end.

Definition not_remote_cmd (cmd : list string) : bool := negb (is_remote_cmd cmd).

Definition is_clone (cmd : list string) : bool :=
  match cmd with
  | "git" :: "clone" :: _ => true
  | _ => false
  end.

Definition not_clone (cmd : list string) : bool := negb (is_clone cmd).

(** the states a sync check can report *)
Definition is_sync_verdict (s : status_code) : bool :=
  match s with
  | STATUS_OK | MODEL_MODIFIED | UNKNOWN | STATUS_ERROR => true
  | DEFAULT | DIRTY => false
  end.

(** every character of [s] satisfies [cls] *)
Fixpoint all_chars (cls : ascii -> bool) (s : string) : bool :=
  match s with
  | EmptyString => true
  | String c r => cls c && all_chars cls r
  end.

(** [s] is empty or starts with a character outside [cls] *)
Definition stops (cls : ascii -> bool) (s : string) : bool :=
  match s with
  | EmptyString => true
  | String c _ => negb (cls c)
  end.

Definition not_space (c : ascii) : bool := negb (Py.isspace c).

Definition not_bracket (c : ascii) : bool := negb (Ascii.eqb c "["%char).

(** a line of [git remote --verbose] for the binding of [name] to [url] *)
Definition remote_line (kind : string) (binding : string * string) : string :=
  fst binding ++ tab ++ snd binding ++ " (" ++ kind ++ ")".

(** the listing of a list of bindings: a fetch line and a push line each *)
Fixpoint remote_lines (bindings : list (string * string)) : list string :=
  match bindings with
  | [] => []
  | b :: rest => remote_line "fetch" b :: remote_line "push" b :: remote_lines rest
  end.

(** a name or URL that a listing line shows as one token *)
Definition one_token (s : string) : bool := Py.truthy s && all_chars not_space s.

(** the name of the first binding whose URL is [url]; empty when there is
    none *)
Fixpoint first_bound (url : string) (bindings : list (string * string)) : string :=
  match bindings with
  | [] => EmptyString
  | (n, u) :: rest => if String.eqb url u then n else first_bound url rest
  end.

(** the working copy of [tagged_world] with a tracked file modified *)
Definition dirty_world : Script := {|
  dirs := dirs tagged_world;
  files := files tagged_world;
  answers :=
    (cmd_status_porcelain, (0%Z, " M src/a.f90" ++ String "000"%char EmptyString))
    :: (cmd_status_verbose, (0%Z, "HEAD detached at v1.0"))
    :: answers tagged_world;
  failing := []
|}.

(** a declaration of a tag that the working copy does not have, and one
    whose URL is a bare directory name *)
Definition missing_tag_decl : GitRepository := {|
  _name := "ext"; _url := "https://example/repo.git";
  _tag := "v2.0"; _branch := EmptyString; _hash := EmptyString
|}.

Definition bare_url_decl : GitRepository := {|
  _name := "ext"; _url := "repo";
  _tag := EmptyString; _branch := "master"; _hash := EmptyString
|}.




(** a working copy in which [release] is a tag and also a branch of the
    remote [origin], which is bound to [https://example/repo.git] *)
Definition collision_world : Script := {|
  dirs := ["/work"; "/work/ext"];
  files := ["/work/ext/.git"];
  answers :=
    [ (cmd_remote_verbose,
       (0%Z, line ("origin" ++ tab ++ "https://example/repo.git (fetch)")
             ++ line ("origin" ++ tab ++ "https://example/repo.git (push)")));
      (cmd_showref_tag "release", (0%Z, EmptyString));
      (cmd_lsremote "release" "origin", (0%Z, EmptyString));
      (cmd_revparse "release", (0%Z, line a_hash)) ];
  failing := []
|}.

(** ** Laws of the run monad *)

Lemma bind_ok {W A B} (c : M W A) (f : A -> M W B) p a :
  result (c p) = Ok a ->
  bind c f p =
  mkRun (result (f a (after (c p))))
        (cmds (c p) ++ cmds (f a (after (c p))))%list
        (after (f a (after (c p)))).
Proof. intros E. unfold bind. rewrite E. reflexivity. Qed.

Lemma bind_fatal {W A B} (c : M W A) (f : A -> M W B) p msg :
  result (c p) = Fatal msg ->
  bind c f p = mkRun (Fatal msg) (cmds (c p)) (after (c p)).
Proof. intros E. unfold bind. rewrite E. reflexivity. Qed.

Lemma bind_uncaught {W A B} (c : M W A) (f : A -> M W B) p e :
  result (c p) = Uncaught e ->
  bind c f p = mkRun (Uncaught e) (cmds (c p)) (after (c p)).
Proof. intros E. unfold bind. rewrite E. reflexivity. Qed.

Lemma bind_returned {W A B} (c : M W A) (f : A -> M W B) p :
  returned (result (bind c f p)) = true ->
  exists a, result (c p) = Ok a /\
            returned (result (f a (after (c p)))) = true.
Proof.
  unfold bind. destruct (result (c p)) as [a| |]; simpl; try discriminate.
  intros H. exists a. split; [reflexivity | exact H].
Qed.

Lemma ends_bind {W A B} (c : M W A) (f : A -> M W B) p a q :
  result (c p) = Ok a -> after (c p) = q ->
  ends (bind c f p) = ends (f a q).
Proof. intros E Q. unfold ends, bind. rewrite E, Q. reflexivity. Qed.

Lemma ends_bind_readonly {W A B} (c : M W A) (f : A -> M W B) p a :
  readonly c -> result (c p) = Ok a ->
  ends (bind c f p) = ends (f a p).
Proof. intros R E. apply ends_bind; [exact E | apply R]. Qed.

Lemma bind_run_ok {W A B} (c : M W A) (f : A -> M W B) p a l q :
  c p = mkRun (Ok a) l q ->
  bind c f p = mkRun (result (f a q)) (l ++ cmds (f a q))%list (after (f a q)).
Proof. intros E. unfold bind. rewrite E. reflexivity. Qed.

Lemma bind_run_fatal {W A B} (c : M W A) (f : A -> M W B) p msg l q :
  c p = mkRun (Fatal msg) l q ->
  bind c f p = mkRun (Fatal msg) l q.
Proof. intros E. unfold bind. rewrite E. reflexivity. Qed.

Lemma ends_inv {W A} (r : Run W A) o q :
  ends r = (o, q) -> result r = o /\ after r = q.
Proof. unfold ends. intros E. injection E as E1 E2. auto. Qed.

Lemma ends_bind_assoc {W A B C} (c : M W A) (g : A -> M W B)
      (f : B -> M W C) p :
  ends (bind (bind c g) f p) = ends (bind c (fun x => bind (g x) f) p).
Proof.
  unfold ends, bind.
  destruct (result (c p)) as [a| |]; cbn [result after cmds]; try reflexivity.
  destruct (result (g a (after (c p)))); reflexivity.
Qed.

Lemma cmds_mkRun {W A} (o : outcome A) l (q : Proc W) :
  cmds (mkRun o l q) = l.
Proof. reflexivity. Qed.

Lemma result_mkRun {W A} (o : outcome A) l (q : Proc W) :
  result (mkRun o l q) = o.
Proof. reflexivity. Qed.

Lemma cmds_bind_assoc {W A B C} (c : M W A) (g : A -> M W B)
      (f : B -> M W C) p :
  cmds (bind (bind c g) f p) = cmds (bind c (fun x => bind (g x) f) p).
Proof.
  unfold bind.
  destruct (result (c p)) as [a| |]; cbn [result after cmds]; try reflexivity.
  destruct (result (g a (after (c p)))); cbn [result after cmds];
    rewrite ?app_assoc; reflexivity.
Qed.

Lemma cmds_bind {W A B} (c : M W A) (f : A -> M W B) p :
  cmds (bind c f p)
  = (cmds (c p)
     ++ match result (c p) with
        | Ok a => cmds (f a (after (c p)))
        | _ => []
        end)%list.
Proof.
  unfold bind. destruct (result (c p)); cbn [cmds];
    rewrite ?app_nil_r; reflexivity.
Qed.

Lemma cmds_execute {W} `{Host W} cmd s o p :
  cmds (execute_subprocess cmd s o p) = [cmd].
Proof.
  unfold execute_subprocess. destruct (s || o); [reflexivity|].
  destruct (effect (world p) (cwd p) cmd) as [st w].
  destruct (Z.eqb st 0); reflexivity.
Qed.

Create HintDb run.

Lemma readonly_ret {W A} (a : A) : readonly (W := W) (ret a).
Proof. intros p. reflexivity. Qed.

Lemma readonly_raise {W A} e : readonly (W := W) (A := A) (raise e).
Proof. intros p. reflexivity. Qed.

Lemma readonly_fatal {W A} msg : readonly (W := W) (A := A) (fatal_error msg).
Proof. intros p. reflexivity. Qed.

Lemma readonly_index {W A} (l : list A) i : readonly (W := W) (index l i).
Proof. intros p. unfold index. destruct (nth_error l i); reflexivity. Qed.

Lemma readonly_getcwd {W} : readonly (W := W) os_getcwd.
Proof. intros p. reflexivity. Qed.

Lemma readonly_exists {W} `{Host W} path : readonly (os_path_exists path).
Proof. intros p. reflexivity. Qed.

Lemma readonly_bind {W A B} (c : M W A) (f : A -> M W B) :
  readonly c -> (forall a, readonly (f a)) -> readonly (bind c f).
Proof.
  intros Hc Hf p. unfold bind.
  destruct (result (c p)) eqn:E; simpl; rewrite ?Hc; try reflexivity.
  apply Hf.
Qed.

Lemma readonly_query {W} `{Host W} cmd s o :
  s || o = true -> readonly (execute_subprocess cmd s o).
Proof.
  intros E p. unfold execute_subprocess. rewrite E. reflexivity.
Qed.

Lemma keeps_cwd_readonly {W A} (c : M W A) : readonly c -> keeps_cwd c.
Proof. intros Hc p. rewrite Hc. reflexivity. Qed.

Lemma keeps_cwd_bind {W A B} (c : M W A) (f : A -> M W B) :
  keeps_cwd c -> (forall a, keeps_cwd (f a)) -> keeps_cwd (bind c f).
Proof.
  intros Hc Hf p. unfold bind.
  destruct (result (c p)) eqn:E; simpl; try apply Hc.
  rewrite Hf. apply Hc.
Qed.

Lemma keeps_cwd_execute {W} `{Host W} cmd s o :
  keeps_cwd (execute_subprocess cmd s o).
Proof.
  intros p. unfold execute_subprocess.
  destruct (s || o); [reflexivity|].
  destruct (effect (world p) (cwd p) cmd) as [st w].
  destruct (Z.eqb st 0); reflexivity.
Qed.

#[global] Hint Resolve readonly_ret readonly_raise readonly_fatal
  readonly_index readonly_getcwd readonly_exists : run.

(** decompose a goal [readonly c] along the structure of [c] *)
Ltac readonly_step :=
  first
    [ apply readonly_ret | apply readonly_raise | apply readonly_fatal
    | apply readonly_index | apply readonly_getcwd | apply readonly_exists
    | apply readonly_query; reflexivity
    | apply readonly_bind; [ | intros ]
    | match goal with
      | |- readonly (if ?b then _ else _) => destruct b
      | |- readonly (match ?x with _ => _ end) => destruct x
      | |- readonly (let (_, _) := ?x in _) => destruct x
      end
    | solve [eauto with run] ].

Ltac readonly_tac := repeat readonly_step.

Ltac keeps_cwd_step :=
  first
    [ solve [apply keeps_cwd_readonly; eauto with run]
    | apply keeps_cwd_execute
    | apply keeps_cwd_bind; [ | intros ]
    | match goal with
      | |- keeps_cwd (if ?b then _ else _) => destruct b
      | |- keeps_cwd (match ?x with _ => _ end) => destruct x
      end
    | solve [eauto with run] ].

Ltac keeps_cwd_tac := repeat keeps_cwd_step.

(** ** The information-gathering methods leave the process as it is *)
Section ReadOnly.
Context {W : Type} `{HW : Host W} `{X : Externals}.

Lemma readonly_git_log_hash : readonly _git_log_hash.
Proof. unfold _git_log_hash. readonly_tac. Qed.

Lemma readonly_git_branch_vv : readonly _git_branch_vv.
Proof. unfold _git_branch_vv. readonly_tac. Qed.

Lemma readonly_git_remote_verbose : readonly _git_remote_verbose.
Proof. unfold _git_remote_verbose. readonly_tac. Qed.

Lemma readonly_git_revparse_commit ref : readonly (_git_revparse_commit ref).
Proof. unfold _git_revparse_commit. readonly_tac. Qed.

Lemma readonly_git_status_porcelain : readonly _git_status_porcelain_v1z.
Proof. unfold _git_status_porcelain_v1z. readonly_tac. Qed.

Lemma readonly_git_status_verbose : readonly _git_status_verbose.
Proof. unfold _git_status_verbose. readonly_tac. Qed.

Lemma readonly_ref_is_tag ref : readonly (_ref_is_tag ref).
Proof. unfold _ref_is_tag, _git_showref_tag. readonly_tac. Qed.

Lemma readonly_ref_is_local_branch ref : readonly (_ref_is_local_branch ref).
Proof. unfold _ref_is_local_branch, _git_showref_branch. readonly_tac. Qed.

Lemma readonly_ref_is_remote_branch ref rn :
  readonly (_ref_is_remote_branch ref rn).
Proof. unfold _ref_is_remote_branch, _git_lsremote_branch. readonly_tac. Qed.

#[local] Hint Resolve readonly_git_log_hash readonly_git_branch_vv
  readonly_git_remote_verbose readonly_git_revparse_commit
  readonly_git_status_porcelain readonly_git_status_verbose
  readonly_ref_is_tag readonly_ref_is_local_branch
  readonly_ref_is_remote_branch : run.

Lemma readonly_ref_is_branch ref rn : readonly (_ref_is_branch ref rn).
Proof. unfold _ref_is_branch. readonly_tac. Qed.

Lemma readonly_ref_is_hash ref : readonly (_ref_is_hash ref).
Proof. unfold _ref_is_hash. readonly_tac. Qed.

#[local] Hint Resolve readonly_ref_is_branch readonly_ref_is_hash : run.

Lemma readonly_is_unique_tag ref rn : readonly (_is_unique_tag ref rn).
Proof. unfold _is_unique_tag. readonly_tac. Qed.

#[local] Hint Resolve readonly_is_unique_tag : run.

Lemma readonly_check_for_valid_ref self ref rn :
  readonly (_check_for_valid_ref self ref rn).
Proof. unfold _check_for_valid_ref. readonly_tac. Qed.

Lemma readonly_scan_remotes url lines :
  readonly (scan_remotes (W := W) url lines).
Proof.
  induction lines as [|l rest IH]; simpl; readonly_tac; exact IH.
Qed.

#[local] Hint Resolve readonly_scan_remotes : run.

Lemma readonly_determine_remote_name self :
  readonly (_determine_remote_name self).
Proof. unfold _determine_remote_name. readonly_tac. Qed.

#[local] Hint Resolve readonly_determine_remote_name : run.

Lemma readonly_create_remote_name self :
  readonly (_create_remote_name (W := W) self).
Proof. unfold _create_remote_name. readonly_tac. Qed.

Lemma readonly_expected_ref_of self : readonly (expected_ref_of self).
Proof. unfold expected_ref_of. readonly_tac. Qed.

Lemma readonly_current_ref : readonly _current_ref.
Proof.
  unfold _current_ref, group1_or_fatal, strip_ref. readonly_tac.
Qed.

End ReadOnly.

#[global] Hint Resolve readonly_git_log_hash readonly_git_branch_vv
  readonly_git_remote_verbose readonly_git_revparse_commit
  readonly_git_status_porcelain readonly_git_status_verbose
  readonly_ref_is_tag readonly_ref_is_local_branch
  readonly_ref_is_remote_branch readonly_ref_is_branch readonly_ref_is_hash
  readonly_is_unique_tag readonly_check_for_valid_ref readonly_scan_remotes
  readonly_determine_remote_name readonly_create_remote_name
  readonly_expected_ref_of readonly_current_ref : run.

(** ** Where a method leaves the working directory *)
Section WorkingDirectory.
Context {W : Type} `{HW : Host W} `{X : Externals}.

Lemma join_absolute a b :
  Py.startswith b "/" = true -> Py.os_path_join a b = b.
Proof. intros E. unfold Py.os_path_join. rewrite E. reflexivity. Qed.

Lemma chdir_cases path q :
  (is_dir (world q) (Py.os_path_join (cwd q) path) = true /\
   os_chdir path q =
   mkRun (Ok tt) [] (mkProc (Py.os_path_join (cwd q) path) (world q)))
  \/
  (is_dir (world q) (Py.os_path_join (cwd q) path) = false /\
   os_chdir path q = mkRun (Uncaught OSError) [] q).
Proof.
  unfold os_chdir.
  destruct (is_dir (world q) (Py.os_path_join (cwd q) path)); auto.
Qed.

Lemma chdir_home home q :
  Py.startswith home "/" = true -> is_dir (world q) home = true ->
  os_chdir home q = mkRun (Ok tt) [] (mkProc home (world q)).
Proof.
  intros Habs Hd. unfold os_chdir.
  rewrite (join_absolute _ _ Habs), Hd. reflexivity.
Qed.

Lemma returns_home_chdir home :
  Py.startswith home "/" = true -> returns_home home (os_chdir (W := W) home).
Proof.
  intros Habs q.
  destruct (chdir_cases home q) as [[_ E]|[_ E]]; rewrite E; simpl;
    split; intros; try discriminate; auto using join_absolute.
Qed.

Lemma returns_home_chdir_ret {A} home (x : A) :
  Py.startswith home "/" = true ->
  returns_home home (os_chdir (W := W) home ;; ret x).
Proof.
  intros Habs q. unfold bind.
  destruct (chdir_cases home q) as [[_ E]|[_ E]]; rewrite E; simpl;
    split; intros; try discriminate; auto using join_absolute.
Qed.

Lemma returns_home_bind {A B} home (c : M W A) (f : A -> M W B) :
  keeps_cwd c -> (forall a, returns_home home (f a)) ->
  returns_home home (bind c f).
Proof.
  intros Hc Hf q. unfold bind.
  destruct (result (c q)) as [a| |] eqn:E; simpl.
  - destruct (Hf a (after (c q))) as [H1 H2].
    split; intros H; [apply H1 | rewrite H2, ?Hc]; auto.
  - split; intros; [discriminate | apply Hc].
  - split; intros; [discriminate | apply Hc].
Qed.

(** a method of the shape [cwd = os.getcwd(); os.chdir(path); ...] whose
    remainder returns home *)
Lemma scoped_cwd {A} path (rest : string -> M W A) p :
  Py.startswith (cwd p) "/" = true ->
  (forall home, Py.startswith home "/" = true -> returns_home home (rest home)) ->
  let r := (home <- os_getcwd ;; os_chdir path ;; rest home) p in
  (returned (result r) = true -> cwd (after r) = cwd p) /\
  (returned (result r) = false ->
   is_dir (world p) (Py.os_path_join (cwd p) path) = true ->
   cwd (after r) = Py.os_path_join (cwd p) path).
Proof.
  intros Habs Hrest. cbv zeta.
  rewrite (bind_ok os_getcwd _ p (cwd p)) by reflexivity. simpl.
  destruct (chdir_cases path p) as [[D E]|[D E]].
  - rewrite (bind_ok (os_chdir path) _ p tt) by (rewrite E; reflexivity).
    rewrite E; simpl.
    destruct (Hrest (cwd p) Habs
                (mkProc (Py.os_path_join (cwd p) path) (world p))) as [H1 H2].
    split; intros; auto.
  - rewrite (bind_uncaught (os_chdir path) _ p OSError)
      by (rewrite E; reflexivity).
    rewrite E; simpl. split; intros; [discriminate | congruence].
Qed.

Lemma keeps_cwd_git_clone url name v : keeps_cwd (_git_clone url name v).
Proof. unfold _git_clone. keeps_cwd_tac. Qed.

Lemma keeps_cwd_git_remote_add name url : keeps_cwd (_git_remote_add name url).
Proof. unfold _git_remote_add. keeps_cwd_tac. Qed.

Lemma keeps_cwd_git_fetch rn : keeps_cwd (_git_fetch rn).
Proof. unfold _git_fetch. keeps_cwd_tac. Qed.

Lemma keeps_cwd_git_checkout_ref ref v : keeps_cwd (_git_checkout_ref ref v).
Proof. unfold _git_checkout_ref. keeps_cwd_tac. Qed.

#[local] Hint Resolve keeps_cwd_git_clone keeps_cwd_git_remote_add
  keeps_cwd_git_fetch keeps_cwd_git_checkout_ref : run.

Lemma keeps_cwd_checkout_local_ref self v :
  keeps_cwd (_checkout_local_ref self v).
Proof. unfold _checkout_local_ref. keeps_cwd_tac. Qed.

Lemma keeps_cwd_checkout_external_ref self v :
  keeps_cwd (_checkout_external_ref self v).
Proof. unfold _checkout_external_ref. keeps_cwd_tac. Qed.

End WorkingDirectory.

(** ** Claims about the working directory, configuration errors and
    structural absence *)
Section Sequences.
Context {W : Type} `{HW : Host W} `{X : Externals}.

Ltac returns_home_tac :=
  repeat first
    [ progress cbv zeta
    | apply returns_home_chdir; assumption
    | apply returns_home_chdir_ret; assumption
    | apply returns_home_bind;
      [ solve [keeps_cwd_tac
              | apply keeps_cwd_checkout_local_ref
              | apply keeps_cwd_checkout_external_ref] | intros ] ].

(** C2, as amended. Each operation sequence that switches into a
    directory (sync check, checkout, clone, status summary) leaves the
    process working directory equal to its value before the sequence when
    the sequence returns; the restoring [os.chdir(cwd)] is the last statement
    of the sequence, so a sequence that ends in a fatal error or an exception
    after the switch leaves the process in the directory it switched into.
    The working directory the process starts from is an absolute path, as
    [os.getcwd()] returns it. *)
Theorem cwd_restored_when_sequence_returns
        (self : GitRepository) (stat : ExternalStatus)
        (repo_dir_path base_dir_path repo_dir_name : string) (verbosity : Z)
        (p : Proc W) :
  Py.startswith (cwd p) "/" = true ->
  switched_into p repo_dir_path (_check_sync_logic self stat repo_dir_path p)
  /\ switched_into p repo_dir_path (_checkout_ref self repo_dir_path verbosity p)
  /\ switched_into p base_dir_path
       (_clone_repo self base_dir_path repo_dir_name verbosity p)
  /\ switched_into p repo_dir_path (_status_summary self stat repo_dir_path p).
Proof.
  intros Habs.
  repeat split.
  all: match goal with
       | |- context [_check_sync_logic] => unfold _check_sync_logic
       | |- context [_checkout_ref] => unfold _checkout_ref
       | |- context [_clone_repo] => unfold _clone_repo
       | |- context [_status_summary] => unfold _status_summary
       end.
  all: match goal with
       | Habs : Py.startswith (cwd ?q) _ = true
         |- context [bind os_getcwd ?f ?q] =>
           match f with
           | (fun home => bind (os_chdir ?d) (fun _ => @?rest home)) =>
               let S := fresh "S" in
               pose proof (scoped_cwd d rest q Habs) as S;
               cbv zeta beta in S;
               apply S; clear S; intros home Hhome
           end
       end.
  all: returns_home_tac.
Qed.

(** C8, as amended. For every declaration in which none of branch, tag or
    hash is set, the sync evaluation of a working copy that is present
    (the path and its [.git] exist) ends in the fatal configuration error;
    [_check_sync_logic] asks for the current hash first, so the query
    [git log -1 --format="%H"] has run when the error is raised, and no
    other command has. *)
Theorem none_set_is_fatal_after_log_query
        (self : GitRepository) (stat : ExternalStatus)
        (repo_dir_path : string) (p : Proc W) :
  Py.truthy (_branch self) = false ->
  Py.truthy (_hash self) = false ->
  Py.truthy (_tag self) = false ->
  path_exists (world p) (Py.os_path_join (cwd p) repo_dir_path) = true ->
  path_exists (world p)
    (Py.os_path_join (cwd p) (Py.os_path_join repo_dir_path ".git")) = true ->
  is_dir (world p) (Py.os_path_join (cwd p) repo_dir_path) = true ->
  result (_check_sync self stat repo_dir_path p) = Fatal (msg_none_set self)
  /\ cmds (_check_sync self stat repo_dir_path p) = [cmd_log_hash]
  /\ result (_check_sync_logic self stat repo_dir_path p)
     = Fatal (msg_none_set self)
  /\ cmds (_check_sync_logic self stat repo_dir_path p) = [cmd_log_hash].
Proof.
  intros Hb Hh Ht He Hg Hd.
  set (here := mkProc (Py.os_path_join (cwd p) repo_dir_path) (world p)).
  assert (L : _check_sync_logic self stat repo_dir_path p
              = mkRun (Fatal (msg_none_set self)) [cmd_log_hash] here).
  { unfold _check_sync_logic.
    rewrite (bind_run_ok os_getcwd _ p (cwd p) [] p) by reflexivity.
    rewrite (bind_run_ok (os_chdir repo_dir_path) _ p tt [] here)
      by (unfold os_chdir; rewrite Hd; reflexivity).
    rewrite (bind_run_ok _git_log_hash _ here _ [cmd_log_hash] here)
      by reflexivity.
    cbv zeta.
    rewrite (bind_run_fatal (expected_ref_of self) _ here
               (msg_none_set self) [] here)
      by (unfold expected_ref_of; rewrite Hb, Hh, Ht; reflexivity).
    reflexivity. }
  assert (S : _check_sync self stat repo_dir_path p
              = _check_sync_logic self stat repo_dir_path p).
  { unfold _check_sync.
    rewrite (bind_run_ok (os_path_exists repo_dir_path) _ p true [] p)
      by (unfold os_path_exists; rewrite He; reflexivity).
    cbn [negb].
    rewrite (bind_run_ok (os_path_exists _) _ p true [] p)
      by (unfold os_path_exists; rewrite Hg; reflexivity).
    cbn [negb app].
    destruct (_check_sync_logic self stat repo_dir_path p); reflexivity. }
  rewrite S, L. repeat split; reflexivity.
Qed.

(** C9. When the working-copy path does not exist, [_check_sync] returns
    the report with the sync state STATUS_ERROR and the other fields as
    they were, and [status] as a whole returns that report and hands no
    command to the executor; when the path exists and its [.git] does not,
    [_check_sync] returns the report with the sync state UNKNOWN and the
    other fields as they were; in both cases [_check_sync] returns without
    running a command, so that neither hash is asked for and none is
    compared, and the process is left as it was. *)
Theorem check_sync_structural_absence
        (self : GitRepository) (stat : ExternalStatus)
        (repo_dir_path : string) (p : Proc W) :
  (path_exists (world p) (Py.os_path_join (cwd p) repo_dir_path) = false ->
   _check_sync self stat repo_dir_path p
   = mkRun (Ok {| sync_state := STATUS_ERROR;
                  clean_state := clean_state stat;
                  current_version := current_version stat;
                  expected_version := expected_version stat;
                  status_output := status_output stat |}) [] p
   /\ status self stat repo_dir_path p
      = mkRun (Ok {| sync_state := STATUS_ERROR;
                     clean_state := clean_state stat;
                     current_version := current_version stat;
                     expected_version := expected_version stat;
                     status_output := status_output stat |}) [] p
   /\ (forall s, result (_check_sync self stat repo_dir_path p) = Ok s ->
       sync_state s = STATUS_ERROR)
   /\ (forall s, result (status self stat repo_dir_path p) = Ok s ->
       sync_state s = STATUS_ERROR))
  /\
  (path_exists (world p) (Py.os_path_join (cwd p) repo_dir_path) = true ->
   path_exists (world p)
     (Py.os_path_join (cwd p) (Py.os_path_join repo_dir_path ".git")) = false ->
   _check_sync self stat repo_dir_path p
   = mkRun (Ok {| sync_state := UNKNOWN;
                  clean_state := clean_state stat;
                  current_version := current_version stat;
                  expected_version := expected_version stat;
                  status_output := status_output stat |}) [] p
   /\ (forall s, result (_check_sync self stat repo_dir_path p) = Ok s ->
       sync_state s = UNKNOWN)).
Proof.
  split.
  - intros He.
    assert (E : _check_sync self stat repo_dir_path p
                = mkRun (Ok {| sync_state := STATUS_ERROR;
                               clean_state := clean_state stat;
                               current_version := current_version stat;
                               expected_version := expected_version stat;
                               status_output := status_output stat |}) [] p).
    { unfold _check_sync, bind, os_path_exists, ret. simpl.
      rewrite He. reflexivity. }
    assert (S : status self stat repo_dir_path p
                = mkRun (Ok {| sync_state := STATUS_ERROR;
                               clean_state := clean_state stat;
                               current_version := current_version stat;
                               expected_version := expected_version stat;
                               status_output := status_output stat |}) [] p).
    { unfold status. unfold bind at 1. rewrite E. simpl.
      unfold bind, os_path_exists, ret. simpl. rewrite He. reflexivity. }
    split; [exact E|]. split; [exact S|].
    split; intros s R.
    + rewrite E in R. injection R as <-. reflexivity.
    + rewrite S in R. injection R as <-. reflexivity.
  - intros He Hg.
    assert (E : _check_sync self stat repo_dir_path p
                = mkRun (Ok {| sync_state := UNKNOWN;
                               clean_state := clean_state stat;
                               current_version := current_version stat;
                               expected_version := expected_version stat;
                               status_output := status_output stat |}) [] p).
    { unfold _check_sync, bind, os_path_exists, ret. simpl.
      rewrite He. simpl. rewrite Hg. reflexivity. }
    split; [exact E|].
    intros s R. rewrite E in R. injection R as <-. reflexivity.
Qed.

(** a sync check that returns leaves the process in the absolute directory
    it started from *)
Lemma check_sync_logic_returns_home
      (self : GitRepository) (stat : ExternalStatus)
      (repo_dir_path : string) (p : Proc W) :
  Py.startswith (cwd p) "/" = true ->
  returned (result (_check_sync_logic self stat repo_dir_path p)) = true ->
  cwd (after (_check_sync_logic self stat repo_dir_path p)) = cwd p.
Proof.
  intros Habs. unfold _check_sync_logic.
  match goal with
  | |- context [bind os_getcwd ?f p] =>
      match f with
      | (fun home => bind (os_chdir ?d) (fun _ => @?rest home)) =>
          let S := fresh "S" in
          pose proof (scoped_cwd d rest p Habs) as S;
          cbv zeta beta in S;
          apply S; clear S; intros home Hhome
      end
  end.
  returns_home_tac.
Qed.

End Sequences.

(** *** Concrete runs for the claims above *)

Lemma cwd_restored_witness :
  Py.startswith "/work" "/" = true /\
  cwd (after (_check_sync_logic (X := sample_externals) master_decl stat0
                "ext" (mkProc "/work" tagged_world))) = "/work".
Proof.
  split; [reflexivity|].
  destruct (cwd_restored_when_sequence_returns (X := sample_externals)
              master_decl stat0 "ext" "/work" "new" 0%Z
              (mkProc "/work" tagged_world) eq_refl) as [[H _] _].
  apply H. reflexivity.
Defined.

(** The sync check of a declaration with no branch, tag or hash stops in
    [fatal_error] after the switch into [/work/ext]; the process is left
    there, not in [/work] where it started. *)
Lemma cwd_not_restored_on_fatal_error :
  let p := mkProc "/work" tagged_world in
  let r := _check_sync_logic (X := sample_externals) unset_decl stat0 "ext" p in
  result r = Fatal (msg_none_set unset_decl)
  /\ cwd (after r) = "/work/ext"
  /\ cwd (after r) <> cwd p.
Proof.
  vm_compute. repeat split. intros H. discriminate H.
Qed.

Lemma none_set_witness :
  cmds (_check_sync (X := sample_externals) unset_decl stat0 "ext"
          (mkProc "/work" tagged_world)) = [cmd_log_hash].
Proof.
  apply (none_set_is_fatal_after_log_query (X := sample_externals)
           unset_decl stat0 "ext" (mkProc "/work" tagged_world));
    reflexivity.
Defined.

(** The configuration error of a declaration with no branch, tag or hash
    is raised when a command has already been run. *)
Lemma config_error_raised_after_a_command :
  let r := _check_sync (X := sample_externals) unset_decl stat0 "ext"
             (mkProc "/work" tagged_world) in
  result r = Fatal (msg_none_set unset_decl)
  /\ cmds r = [cmd_log_hash]
  /\ cmds r <> [].
Proof.
  vm_compute. repeat split. intros H. discriminate H.
Qed.

Lemma check_sync_structural_absence_witness :
  let p := mkProc "/work" plain_world in
  status (X := sample_externals) master_decl stat0 "absent" p
  = mkRun (Ok {| sync_state := STATUS_ERROR; clean_state := DEFAULT;
                 current_version := EmptyString;
                 expected_version := EmptyString;
                 status_output := EmptyString |}) [] p
  /\ _check_sync (X := sample_externals) master_decl stat0 "plain" p
     = mkRun (Ok {| sync_state := UNKNOWN; clean_state := DEFAULT;
                    current_version := EmptyString;
                    expected_version := EmptyString;
                    status_output := EmptyString |}) [] p.
Proof.
  split.
  - destruct (proj1 (check_sync_structural_absence (HW := script_host)
                       (X := sample_externals) master_decl stat0 "absent"
                       (mkProc "/work" plain_world))
                ltac:(reflexivity)) as (_ & S & _).
    exact S.
  - destruct (proj2 (check_sync_structural_absence (HW := script_host)
                       (X := sample_externals) master_decl stat0 "plain"
                       (mkProc "/work" plain_world))
                ltac:(reflexivity) ltac:(reflexivity)) as (E & _).
    exact E.
Defined.

(** ** The head-state parser on concrete listings *)

(** the two scenarios of the specification *)
Example detached_at_scenario :
  head_of (line "* (HEAD detached at origin/feature-2)") = Ok "origin/feature-2".
Proof. reflexivity. Qed.

Example detached_from_scenario :
  head_of (line "* (HEAD detached from origin/feature-2) abc123") = Ok "abc123".
Proof. reflexivity. Qed.

(** the head states listed in the docstring of [_current_ref] *)
Example on_local_branch :
  head_of (line "  feature2 36418b4 [origin/feature2] Work on feature2"
           ++ line "* feature3 36418b4 Work on feature2"
           ++ line "  master   9b75494 [origin/master] Initialize repository.")
  = Ok "feature3".
Proof. reflexivity. Qed.

Example on_tracking_branch_ahead_behind :
  head_of (line "* master 408a8920 [origin/master: ahead 3, behind 2] more junk")
  = Ok "origin/master".
Proof. reflexivity. Qed.

Example no_active_line :
  head_of (line "  master 9b75494 [origin/master] Initialize repository.")
  = Ok EMPTY_STR.
Proof. reflexivity. Qed.

(** C3. The active line [* (HEAD detached from tag1) 3bcf79f note:
    detached at sea] has the "detached from" form followed by the hash
    [3bcf79f], and [RE_DETACHED_FROM] finds that hash in it; but the line
    also contains the words "detached at" (in the commit subject), so
    [_current_ref] takes the "detached at" branch, whose pattern does not
    match, and stops in the DEV_ERROR instead of returning the hash. *)
Theorem detached_from_line_with_detached_at_in_subject :
  active_line (Py.splitlines moved_past_tag_listing) = moved_past_tag_line
  /\ Re.search RE_DETACHED_FROM moved_past_tag_line
     = Some {| Re.group1 := Some "3bcf79f" |}
  /\ head_of moved_past_tag_listing
     = Fatal (msg_detached_at
              ++ dev_error_tail moved_past_tag_line moved_past_tag_listing)
  /\ head_of moved_past_tag_listing <> Ok "3bcf79f".
Proof.
  repeat split; try reflexivity. intros H. vm_compute in H. discriminate H.
Qed.

(** C7. An active line that is the marker alone matches none of the three
    patterns and has no second token; [_current_ref] takes the local-branch
    branch, where [ref.split()[1]] raises IndexError: the parser ends in
    an exception that carries neither the line nor the listing, not in
    the [fatal_error] diagnostic of the three branches before it. *)
Theorem bare_marker_line_raises_index_error :
  active_line (Py.splitlines bare_marker_listing) = "*"
  /\ Re.search RE_DETACHED_AT "*" = None
  /\ Re.search RE_DETACHED_FROM "*" = None
  /\ Re.search RE_TRACKING "*" = None
  /\ Py.split "*" = ["*"]
  /\ head_of bare_marker_listing = Uncaught IndexError
  /\ (forall msg, head_of bare_marker_listing <> Fatal msg).
Proof.
  repeat split; try reflexivity. intros msg H. vm_compute in H. discriminate H.
Qed.

(** what git before 1.8.3 prints for a detached HEAD has none of the
    keywords; the second token of the line is returned *)
Example no_branch_line_returns_fragment :
  head_of (line "* (no branch) 36418b4 Work on feature2") = Ok "(no".
Proof. reflexivity. Qed.

(** ** Sync checks and checkouts on concrete working copies *)

Example sync_of_older_tag_is_modified :
  result (_check_sync (X := sample_externals) old_tag_decl stat0 "ext"
            (mkProc "/work" tagged_world))
  = Ok {| sync_state := MODEL_MODIFIED; clean_state := DEFAULT;
          current_version := "v1.0"; expected_version := "v0.9";
          status_output := EmptyString |}.
Proof. reflexivity. Qed.

Example checkout_clones_an_absent_working_copy :
  cmds (checkout (X := sample_externals) master_decl "/work" "new" 0%Z
          (mkProc "/work" tagged_world))
  = [ ["git"; "clone"; "https://example/repo.git"; "new"];
      cmd_remote_verbose;
      ["git"; "fetch"; "--tags"; "origin"];
      cmd_showref_tag "master";
      cmd_lsremote "master" "origin";
      cmd_showref_branch "master";
      cmd_revparse "master";
      ["git"; "checkout"; "origin/master"] ].
Proof. reflexivity. Qed.

(** ** Remote names on concrete declarations *)

Example example_repo_remote_name :
  result (_create_remote_name (X := sample_externals) example_decl
            (mkProc "/work" plain_world)) = Ok "example_repo.git".
Proof. reflexivity. Qed.

(** The last segment of the URL goes into the name as it is written:
    a semicolon in it is a semicolon in the name. *)
Lemma remote_name_keeps_unsafe_character_of_last_segment :
  result (_create_remote_name (X := sample_externals) semicolon_decl
            (mkProc "/work" plain_world)) = Ok "base_re;po"
  /\ Py.mem_char ";"%char unsafe_characters = true
  /\ Py.mem_char ";"%char "base_re;po" = true.
Proof. repeat split; reflexivity. Qed.

(** C6. The working copy has the remote [origin] bound to the declared
    URL [/data/my repos/base/x]. [_determine_remote_name] compares the
    declared URL with the second whitespace-separated token of each line
    of the listing, which for this line is [/data/my]; it reports no
    binding, and the checkout registers a second binding, [base_x], for
    the URL that [origin] already has. *)
Theorem url_with_blank_is_bound_twice :
  let p := mkProc "/work/ext" blank_world in
  query (world p) (cwd p) cmd_remote_verbose
  = (0%Z, line ("origin" ++ tab ++ blank_url ++ " (fetch)")
          ++ line ("origin" ++ tab ++ blank_url ++ " (push)"))
  /\ result (_determine_remote_name blank_decl p)
     = Ok EmptyString
  /\ cmds (_checkout_external_ref (X := sample_externals) blank_decl 0%Z p)
     = [ cmd_remote_verbose;
         ["git"; "remote"; "add"; "base_x"; blank_url];
         ["git"; "fetch"; "--tags"; "base_x"];
         cmd_showref_tag "release";
         cmd_lsremote "release" "base_x";
         cmd_showref_branch "release";
         cmd_revparse "release";
         ["git"; "checkout"; "base_x/release"] ].
Proof. repeat split; reflexivity. Qed.

(** ** The sync evaluator *)
Section SyncEvaluator.
Context {W : Type} `{HW : Host W} `{X : Externals}.


End SyncEvaluator.



(** ** The reference classifier *)


Lemma contains_append_r (a b needle : string) :
  Py.contains b needle = true -> Py.contains (a ++ b) needle = true.
Proof.
  intros H. induction a as [|c a IH]; simpl; [exact H|].
  rewrite IH. apply orb_true_r.
Qed.



Lemma existsb_forallb_negb {A} (P : A -> bool) l :
  forallb (fun x => negb (P x)) l = true -> existsb P l = false.
Proof.
  induction l as [|x l IH]; simpl; [reflexivity|].
  intros H. apply andb_true_iff in H as [H1 H2].
  apply negb_true_iff in H1. rewrite H1, (IH H2). reflexivity.
Qed.

Lemma emits_ret {W A} P (a : A) : emits (W := W) P (ret a).
Proof. intros p. reflexivity. Qed.

Lemma emits_fatal {W A} P msg : emits (W := W) (A := A) P (fatal_error msg).
Proof. intros p. reflexivity. Qed.

Lemma emits_raise {W A} P e : emits (W := W) (A := A) P (raise e).
Proof. intros p. reflexivity. Qed.

Lemma emits_bind {W A B} P (c : M W A) (f : A -> M W B) :
  emits P c -> (forall a, emits P (f a)) -> emits P (bind c f).
Proof.
  intros Hc Hf p. unfold bind.
  destruct (result (c p)) eqn:E; simpl; try apply Hc.
  rewrite forallb_app, Hc, Hf. reflexivity.
Qed.

Lemma emits_execute {W} `{Host W} (P : list string -> bool) cmd s o :
  P cmd = true -> emits P (execute_subprocess cmd s o).
Proof.
  intros HP p. unfold execute_subprocess.
  destruct (s || o); simpl; [rewrite HP; reflexivity|].
  destruct (effect (world p) (cwd p) cmd) as [st w].
  destruct (Z.eqb st 0); simpl; rewrite HP; reflexivity.
Qed.

Ltac emits_step :=
  first
    [ apply emits_ret | apply emits_fatal | apply emits_raise
    | apply emits_execute; reflexivity
    | apply emits_bind; [ | intros ]
    | match goal with
      | |- emits _ (if ?b then _ else _) => destruct b
      | |- emits _ (match ?x with _ => _ end) => destruct x
      end ].

Ltac emits_tac := repeat emits_step.

(** rewrite the end of [x <- c ;; f x] for an information-gathering [c]
    whose result is known *)
Ltac step_ro :=
  erewrite ends_bind_readonly;
  [ | solve [auto with run] | first [eassumption | reflexivity] ].

Section Classifier.
Context {W : Type} `{HW : Host W} `{X : Externals}.

Lemma ref_is_hash_returns ref p :
  exists b, result (_ref_is_hash ref p) = Ok b.
Proof.
  unfold _ref_is_hash, _git_revparse_commit, bind, execute_subprocess, ret.
  simpl. destruct (query (world p) (cwd p) _) as [st out]. simpl.
  eexists. reflexivity.
Qed.



Lemma emits_check_for_valid_ref self ref rn :
  emits not_checkout (_check_for_valid_ref self ref rn).
Proof.
  unfold _check_for_valid_ref, _is_unique_tag, _ref_is_tag, _ref_is_branch,
    _ref_is_hash, _ref_is_local_branch, _ref_is_remote_branch,
    _git_showref_tag, _git_showref_branch, _git_lsremote_branch,
    _git_revparse_commit.
  emits_tac.
Qed.

(** the verdict of [_is_unique_tag] as a function of the three probes *)
Lemma is_unique_tag_ends ref rn p (t b h : bool) :
  result (_ref_is_tag ref p) = Ok t ->
  result (_ref_is_branch ref rn p) = Ok b ->
  result (_ref_is_hash ref p) = Ok h ->
  ends (_is_unique_tag ref rn p)
  = (Ok (if t && negb b then (true, msg_is_ok)
         else if t && b then (false, msg_both)
         else if negb t && b then (false, msg_branch_not_tag)
         else if h then (true, msg_is_ok)
         else (false, msg_undetermined)), p).
Proof.
  intros Ht Hb Hh. unfold _is_unique_tag.
  do 3 step_ro.
  destruct t, b, h; reflexivity.
Qed.

(** the outcome of [_check_for_valid_ref] as a function of the three
    probes: the unique-tag check only has a say when the tag probe
    succeeded *)
Lemma check_for_valid_ref_ends self ref rn p (t b h : bool) :
  result (_ref_is_tag ref p) = Ok t ->
  result (_ref_is_branch ref rn p) = Ok b ->
  result (_ref_is_hash ref p) = Ok h ->
  ends (_check_for_valid_ref self ref rn p)
  = (if negb (t || b || h) then Fatal (msg_invalid_ref self ref)
     else if t && b then Fatal (msg_tag self msg_both)
     else Ok true, p).
Proof.
  intros Ht Hb Hh. unfold _check_for_valid_ref.
  do 3 step_ro.
  pose proof (is_unique_tag_ends ref rn p t b h Ht Hb Hh) as U.
  apply ends_inv in U. destruct U as [U1 U2].
  destruct t, b, h; cbn [negb orb andb] in *;
    try reflexivity; step_ro;
    try (rewrite ends_bind_assoc, (ends_bind _ _ p _ p U1 U2));
    try step_ro; reflexivity.
Qed.

Lemma bind_ok_readonly {A B} (c : M W A) (f : A -> M W B) p a :
  readonly c -> result (c p) = Ok a ->
  bind c f p
  = mkRun (result (f a p)) (cmds (c p) ++ cmds (f a p))%list (after (f a p)).
Proof.
  intros R E. rewrite (bind_ok c f p a E), (R p). reflexivity.
Qed.

Lemma cmds_git_checkout_ref ref v p :
  cmds (_git_checkout_ref ref v p) = [["git"; "checkout"; ref]].
Proof.
  unfold _git_checkout_ref, bind, execute_subprocess. simpl.
  destruct (effect (world p) (cwd p) _) as [st w].
  destruct (Z.eqb st 0); reflexivity.
Qed.

Lemma checkout_local_ref_unfold self v :
  _checkout_local_ref self v
  = bind (_check_for_valid_ref self (declared_ref self) None)
         (fun _ => _git_checkout_ref (declared_ref self) v).
Proof. reflexivity. Qed.

Lemma msg_tag_names_both self :
  Py.contains (msg_tag self msg_both) "is both a branch and a tag" = true.
Proof.
  unfold msg_tag. do 9 (apply contains_append_r). reflexivity.
Qed.

Lemma check_for_valid_ref_no_checkout self ref rn p :
  existsb is_checkout (cmds (_check_for_valid_ref self ref rn p)) = false.
Proof.
  apply existsb_forallb_negb.
  apply (emits_check_for_valid_ref self ref rn p).
Qed.

(** A reference that probes as a tag and as a branch makes
    [_check_for_valid_ref] stop in [fatal_error] with the message
    [In repo "<name>": tag "<tag>" is both a branch and a tag. ...], where
    [<tag>] is the tag of the declaration, whatever reference was
    validated; nothing that follows the validation is run, and in
    particular the local checkout path ends in that error without a
    [git checkout]. *)
Theorem tag_branch_collision_is_fatal
        (self : GitRepository) (ref : string) (remote_name : option string)
        (verbosity : Z) (p : Proc W) :
  result (_ref_is_tag ref p) = Ok true ->
  result (_ref_is_branch ref remote_name p) = Ok true ->
  result (_check_for_valid_ref self ref remote_name p)
  = Fatal (msg_tag self msg_both)
  /\ Py.contains (msg_tag self msg_both) "is both a branch and a tag" = true
  /\ existsb is_checkout (cmds (_check_for_valid_ref self ref remote_name p))
     = false
  /\ (forall (B : Type) (k : bool -> M W B),
        bind (_check_for_valid_ref self ref remote_name) k p
        = mkRun (Fatal (msg_tag self msg_both))
                (cmds (_check_for_valid_ref self ref remote_name p)) p)
  /\ (remote_name = None -> ref = declared_ref self ->
      result (_checkout_local_ref self verbosity p)
      = Fatal (msg_tag self msg_both)
      /\ existsb is_checkout (cmds (_checkout_local_ref self verbosity p))
         = false).
Proof.
  intros Ht Hb.
  destruct (ref_is_hash_returns ref p) as [h Hh].
  destruct (ends_inv _ _ _
              (check_for_valid_ref_ends self ref remote_name p true true h
                 Ht Hb Hh)) as [E1 E2].
  change (result (_check_for_valid_ref self ref remote_name p)
          = Fatal (msg_tag self msg_both)) in E1.
  assert (K : forall (B : Type) (k : bool -> M W B),
             bind (_check_for_valid_ref self ref remote_name) k p
             = mkRun (Fatal (msg_tag self msg_both))
                 (cmds (_check_for_valid_ref self ref remote_name p)) p).
  { intros B k. rewrite (bind_fatal _ k p _ E1), E2. reflexivity. }
  split; [exact E1|].
  split; [apply msg_tag_names_both|].
  split; [apply check_for_valid_ref_no_checkout|].
  split; [exact K|].
  intros -> ->. rewrite checkout_local_ref_unfold, K.
  rewrite result_mkRun, cmds_mkRun.
  split; [reflexivity | apply check_for_valid_ref_no_checkout].
Qed.


End Classifier.

(** C4. The declaration names [release] as its branch and has no tag; in
    the working copy [release] is a tag as well as a branch of the remote.
    Both probes succeed and the validation, and with it the external
    checkout, stops in the fatal error without a [git checkout]. The
    message is built from the tag of the declaration and not from the
    reference that was validated: it reads
    [In repo "ext": tag "" is both a branch and a tag. ...], and the
    reference [release] occurs nowhere in it. *)
Theorem collision_of_declared_branch_names_no_reference :
  let p := mkProc "/work/ext" collision_world in
  let r := _checkout_external_ref (X := sample_externals) example_decl 0%Z p in
  let msg := "In repo " ++ Py.dq ++ "ext" ++ Py.dq ++ ": tag " ++ Py.dq
             ++ Py.dq ++ " is both a branch and a tag. git may checkout the"
             ++ " branch instead of the tag depending on your version of"
             ++ " git." in
  declared_ref example_decl = "release"
  /\ result (_ref_is_tag "release" p) = Ok true
  /\ result (_ref_is_branch "release" (Some "origin") p) = Ok true
  /\ result (_check_for_valid_ref example_decl "release" (Some "origin") p)
     = Fatal msg
  /\ result r = Fatal msg
  /\ existsb is_checkout (cmds r) = false
  /\ Py.contains msg "release" = false.
Proof.
  vm_compute. repeat split.
Qed.

(** the reference [both] is a tag and a local branch of the working copy *)
Lemma tag_branch_collision_witness :
  let p := mkProc "/work/ext" tagged_world in
  result (_checkout_local_ref both_decl 0%Z p)
  = Fatal (msg_tag both_decl msg_both)
  /\ existsb is_checkout
       (cmds (_checkout_local_ref both_decl 0%Z p))
     = false.
Proof.
  destruct (tag_branch_collision_is_fatal (HW := script_host) both_decl
              "both" None 0%Z (mkProc "/work/ext" tagged_world)
              ltac:(reflexivity) ltac:(reflexivity))
    as (_ & _ & _ & _ & L).
  exact (L eq_refl eq_refl).
Defined.


(** ** The synthesized remote name *)

Lemma mem_char_append c a b :
  Py.mem_char c (a ++ b) = Py.mem_char c a || Py.mem_char c b.
Proof.
  induction a as [|d a IH]; simpl; [reflexivity|].
  rewrite IH. apply orb_assoc.
Qed.

Lemma mem_char_remove_same c s : Py.mem_char c (Py.remove_char c s) = false.
Proof.
  induction s as [|d s IH]; simpl; [reflexivity|].
  destruct (Ascii.eqb d c) eqn:E; [exact IH|].
  simpl. rewrite Ascii.eqb_sym, E. exact IH.
Qed.

Lemma mem_char_remove_other c d s :
  Py.mem_char c s = false -> Py.mem_char c (Py.remove_char d s) = false.
Proof.
  induction s as [|e s IH]; simpl; [reflexivity|].
  intros H. apply orb_false_iff in H as [H1 H2].
  destruct (Ascii.eqb e d); [auto|].
  simpl. rewrite H1. auto.
Qed.

Lemma mem_char_In c s : Py.mem_char c s = true <-> In c (Py.chars s).
Proof.
  induction s as [|d s IH]; simpl; [split; [discriminate | tauto]|].
  rewrite orb_true_iff, IH. split; intros [H|H]; auto.
  - left. symmetry. apply Ascii.eqb_eq. exact H.
  - left. apply Ascii.eqb_eq. auto.
Qed.

(** removing the characters of [l] one after the other removes each of
    them, and brings none back *)
Lemma fold_remove_char c l : forall b,
  In c l \/ Py.mem_char c b = false ->
  Py.mem_char c (fold_left (fun b unsafe => Py.remove_char unsafe b) l b)
  = false.
Proof.
  induction l as [|d l IH]; simpl; intros b H.
  - destruct H as [[]|H]. exact H.
  - apply IH. destruct H as [[->|H]|H].
    + right. apply mem_char_remove_same.
    + left. exact H.
    + right. apply mem_char_remove_other. exact H.
Qed.

Lemma strip_unsafe_clean c base :
  Py.mem_char c unsafe_characters = true ->
  Py.mem_char c (strip_unsafe base) = false.
Proof.
  intros H. unfold strip_unsafe. apply fold_remove_char.
  left. apply mem_char_In. exact H.
Qed.

Lemma split_on_not_nil sep s : Py.split_on sep s <> [].
Proof.
  destruct s as [|c r]; simpl; [discriminate|].
  destruct (Ascii.eqb c sep); [discriminate|].
  destruct (Py.split_on sep r); discriminate.
Qed.

Lemma split_on_no_sep sep s :
  Forall (fun t => Py.mem_char sep t = false) (Py.split_on sep s).
Proof.
  induction s as [|c r IH]; simpl.
  - constructor; [reflexivity | constructor].
  - destruct (Ascii.eqb c sep) eqn:E.
    + constructor; [reflexivity | exact IH].
    + destruct (Py.split_on sep r) as [|t ts].
      * constructor; [|constructor]. simpl.
        rewrite Ascii.eqb_sym, E. reflexivity.
      * inversion IH as [|? ? Ht Hts]; subst.
        constructor; [|exact Hts]. simpl.
        rewrite Ascii.eqb_sym, E. exact Ht.
Qed.

Lemma split_on_two_segments sep s :
  Py.mem_char sep s = true -> 2 <= List.length (Py.split_on sep s).
Proof.
  induction s as [|c r IH]; simpl; [discriminate|].
  rewrite Ascii.eqb_sym.
  destruct (Ascii.eqb c sep); simpl; intros H.
  - pose proof (split_on_not_nil sep r) as N.
    destruct (Py.split_on sep r); [contradiction | simpl; lia].
  - specialize (IH H).
    destruct (Py.split_on sep r); simpl in *; lia.
Qed.

Lemma last_two_of {A} (l : list A) :
  2 <= List.length l ->
  exists front a b, l = (front ++ [a; b])%list.
Proof.
  induction l as [|x l IH]; simpl; [lia|].
  destruct l as [|y l]; simpl in *; [lia|].
  destruct l as [|z l].
  - intros _. exists [], x, y. reflexivity.
  - intros _. destruct IH as (front & a & b & E); [simpl; lia|].
    exists (x :: front), a, b. rewrite E. reflexivity.
Qed.

Lemma last12_app {A} (front : list A) a b :
  Py.last1 (front ++ [a; b]) = Some b /\ Py.last2 (front ++ [a; b]) = Some a.
Proof.
  unfold Py.last1, Py.last2. rewrite rev_app_distr. split; reflexivity.
Qed.

Section RemoteName.
Context {W : Type} `{X : Externals}.

(** C5, as amended. When the processed URL (the declared URL after
    [split_remote_url] or [expand_local_url]) has a path separator, the
    remote name is [base_repo], where [repo] is the last segment of the
    processed URL as it is written and [base] is the segment before it
    with every character of [unsafe_characters] removed; it is computed
    from the declaration alone, without a command and without touching
    the process. The base part holds none of the unsafe characters and
    the name holds no path separator. *)
Theorem remote_name_from_trailing_segments (self : GitRepository) (p : Proc W) :
  let path := if is_remote_url (_url self) then split_remote_url (_url self)
              else expand_local_url (_url self) (_name self) in
  Py.mem_char "/"%char path = true ->
  exists base_name repo_name,
    Py.last2 (Py.split_on "/"%char path) = Some base_name
    /\ Py.last1 (Py.split_on "/"%char path) = Some repo_name
    /\ _create_remote_name self p
       = mkRun (Ok (strip_unsafe base_name ++ "_" ++ repo_name)) [] p
    /\ (forall c, Py.mem_char c unsafe_characters = true ->
                  Py.mem_char c (strip_unsafe base_name) = false)
    /\ Py.mem_char "/"%char (strip_unsafe base_name ++ "_" ++ repo_name)
       = false.
Proof.
  intros path Hsep.
  destruct (last_two_of _ (split_on_two_segments _ _ Hsep))
    as (front & base_name & repo_name & E).
  destruct (last12_app front base_name repo_name) as [L1 L2].
  exists base_name, repo_name.
  rewrite E. split; [exact L2|]. split; [exact L1|].
  split; [|split].
  - unfold _create_remote_name. fold path. rewrite E, L1, L2. reflexivity.
  - intros c Hc. apply strip_unsafe_clean. exact Hc.
  - pose proof (split_on_no_sep "/"%char path) as F.
    rewrite E in F. apply Forall_app in F as [_ F].
    inversion F as [|? ? _ F']; subst.
    inversion F' as [|? ? Hrepo _]; subst.
    rewrite !mem_char_append, Hrepo.
    rewrite strip_unsafe_clean by reflexivity.
    reflexivity.
Qed.

End RemoteName.

Lemma remote_name_witness :
  _create_remote_name (X := sample_externals) example_decl
    (mkProc "/work" plain_world)
  = mkRun (Ok "example_repo.git") [] (mkProc "/work" plain_world).
Proof.
  destruct (remote_name_from_trailing_segments (X := sample_externals)
              example_decl (mkProc "/work" plain_world) ltac:(reflexivity))
    as (b & r & L2 & L1 & R & _).
  vm_compute in L1, L2.
  injection L1 as <-. injection L2 as <-.
  exact R.
Defined.

(** ** Remote bindings during an external checkout *)

Section RemoteBinding.
Context {W : Type} `{HW : Host W} `{X : Externals}.

Lemma cmds_scan_remotes url lines (p : Proc W) :
  cmds (scan_remotes url lines p) = [].
Proof.
  induction lines as [|l rest IH]; simpl; [reflexivity|].
  destruct (negb (Py.truthy (Py.strip l))); [exact IH|].
  unfold bind, index.
  destruct (nth_error (Py.split (Py.strip l)) 0); [|reflexivity].
  cbn [ret result cmds after raise app].
  destruct (nth_error (Py.split (Py.strip l)) 1); [|reflexivity].
  cbn [ret result cmds after raise app].
  destruct (String.eqb url (Py.strip s0)); [reflexivity|].
  rewrite IH. reflexivity.
Qed.

Lemma cmds_determine_remote_name self p :
  cmds (_determine_remote_name self p) = [cmd_remote_verbose].
Proof.
  unfold _determine_remote_name.
  rewrite (bind_run_ok _git_remote_verbose _ p _ [cmd_remote_verbose] p)
    by reflexivity.
  rewrite cmds_mkRun, cmds_scan_remotes. reflexivity.
Qed.

Lemma cmds_create_remote_name self (p : Proc W) :
  cmds (_create_remote_name self p) = [].
Proof.
  unfold _create_remote_name.
  destruct (Py.last1 _); [|reflexivity].
  destruct (Py.last2 _); reflexivity.
Qed.

Lemma emits_check_for_valid_ref_no_add self ref rn :
  emits not_remote_add (_check_for_valid_ref self ref rn).
Proof.
  unfold _check_for_valid_ref, _is_unique_tag, _ref_is_tag, _ref_is_branch,
    _ref_is_hash, _ref_is_local_branch, _ref_is_remote_branch,
    _git_showref_tag, _git_showref_branch, _git_lsremote_branch,
    _git_revparse_commit.
  emits_tac.
Qed.

(** what [_checkout_external_ref] does once the remote name is settled *)
Lemma emits_after_remote_name self ref rn v :
  emits not_remote_add
    (_git_fetch rn ;;
     _check_for_valid_ref self ref (Some rn) ;;
     _git_checkout_ref
       (if Py.truthy (_branch self) then rn ++ "/" ++ ref else ref) v).
Proof.
  apply emits_bind; [unfold _git_fetch; emits_tac | intros].
  apply emits_bind; [apply emits_check_for_valid_ref_no_add | intros].
  unfold _git_checkout_ref. emits_tac.
Qed.

(** The binding found for the declared URL is reused, and a binding is
    registered only when none is found: when [_determine_remote_name]
    returns a name, the external checkout runs no [git remote add]; when it
    returns the empty string, the checkout runs one [git remote add], with
    the synthesized name and the declared URL, right after the listing. *)
Lemma remote_add_only_when_no_binding_is_found self v p name :
  result (_determine_remote_name self p) = Ok name ->
  (Py.truthy name = true ->
   existsb is_remote_add (cmds (_checkout_external_ref self v p)) = false)
  /\
  (Py.truthy name = false ->
   forall new_name, result (_create_remote_name self p) = Ok new_name ->
   exists rest,
     cmds (_checkout_external_ref self v p)
     = cmd_remote_verbose
       :: ["git"; "remote"; "add"; new_name; _url self] :: rest
     /\ existsb is_remote_add rest = false).
Proof.
  intros Hd. split.
  - intros Hn. unfold _checkout_external_ref. cbv zeta.
    rewrite (bind_ok_readonly (_determine_remote_name self) _ p name)
      by (auto with run).
    rewrite cmds_mkRun, cmds_determine_remote_name. rewrite Hn. cbn [negb].
    rewrite (bind_run_ok (ret name) _ p name [] p) by reflexivity.
    rewrite cmds_mkRun.
    apply existsb_forallb_negb. cbn [app forallb is_remote_add negb andb].
    apply emits_after_remote_name.
  - intros Hn new_name Hc. unfold _checkout_external_ref. cbv zeta.
    rewrite (bind_ok_readonly (_determine_remote_name self) _ p name)
      by (auto with run).
    rewrite cmds_mkRun, cmds_determine_remote_name. rewrite Hn. cbn [negb].
    rewrite cmds_bind_assoc.
    rewrite (bind_ok_readonly (_create_remote_name self) _ p new_name)
      by (auto with run).
    rewrite cmds_mkRun, cmds_create_remote_name.
    rewrite cmds_bind_assoc.
    unfold _git_remote_add at 1.
    rewrite cmds_bind_assoc.
    rewrite cmds_bind, cmds_execute. cbn [app].
    eexists. split; [reflexivity|].
    destruct (result (execute_subprocess _ false false p));
      [|reflexivity|reflexivity].
    apply existsb_forallb_negb.
    rewrite (bind_run_ok (ret tt) _ _ tt [] _) by reflexivity.
    rewrite cmds_mkRun. cbn [app].
    rewrite (bind_run_ok (ret new_name) _ _ new_name [] _) by reflexivity.
    rewrite cmds_mkRun. cbn [app].
    apply emits_after_remote_name.
Qed.

End RemoteBinding.

(** ** The diagnostics of the head-state parser *)

Lemma prefix_append (b c : string) : String.prefix b (b ++ c) = true.
Proof.
  induction b as [|x b IH]; simpl; [destruct c; reflexivity|].
  destruct (ascii_dec x x) as [_|N]; [exact IH | contradiction].
Qed.

Lemma contains_prefix (b c : string) : Py.contains (b ++ c) b = true.
Proof.
  pose proof (prefix_append b c) as H.
  destruct (b ++ c) as [|x h]; cbn [Py.contains]; rewrite H; reflexivity.
Qed.

(** the tail of a DEV_ERROR message shows the active line and the whole
    listing *)
Lemma dev_error_shows_line_and_listing msg ref git_output :
  Py.contains (msg ++ dev_error_tail ref git_output) ref = true
  /\ Py.contains (msg ++ dev_error_tail ref git_output) git_output = true.
Proof.
  unfold dev_error_tail. split.
  - do 4 (apply contains_append_r). apply contains_prefix.
  - do 8 (apply contains_append_r). apply contains_prefix.
Qed.

Section HeadStateParser.
Context {W : Type} `{HW : Host W}.

(** In the three branches that [_current_ref] chooses by a keyword
    ("detached at", "detached from", an opening bracket), a pattern that
    does not match ends the parser in [fatal_error] with the DEV_ERROR
    message of that branch, followed by the active line and the listing. *)
Lemma keyword_branch_failure_is_diagnosed (p : Proc W) :
  let git_output := snd (query (world p) (cwd p) cmd_branch_vv) in
  let ref := active_line (Py.splitlines git_output) in
  Py.truthy ref = true ->
  (Py.contains ref "detached at" = true ->
   Re.search RE_DETACHED_AT ref = None ->
   result (_current_ref p)
   = Fatal (msg_detached_at ++ dev_error_tail ref git_output))
  /\
  (Py.contains ref "detached at" = false ->
   Py.contains ref "detached from" = true ->
   Re.search RE_DETACHED_FROM ref = None ->
   result (_current_ref p)
   = Fatal (msg_detached_from ++ dev_error_tail ref git_output))
  /\
  (Py.contains ref "detached at" = false ->
   Py.contains ref "detached from" = false ->
   Py.contains ref "[" = true ->
   Re.search RE_TRACKING ref = None ->
   result (_current_ref p)
   = Fatal (msg_tracking ++ dev_error_tail ref git_output)).
Proof.
  intros git_output ref Hr.
  assert (U : forall c : M W (option string),
             result (_current_ref p)
             = result ((current_ref <-
                          (if negb (Py.truthy ref) then ret (Some EMPTY_STR)
                           else if Py.contains ref "detached at" then
                             group1_or_fatal (Re.search RE_DETACHED_AT ref)
                               (msg_detached_at
                                ++ dev_error_tail ref git_output)
                           else if Py.contains ref "detached from" then
                             group1_or_fatal (Re.search RE_DETACHED_FROM ref)
                               (msg_detached_from
                                ++ dev_error_tail ref git_output)
                           else if Py.contains ref "[" then
                             group1_or_fatal (Re.search RE_TRACKING ref)
                               (msg_tracking
                                ++ dev_error_tail ref git_output)
                           else
                             tok <- index (Py.split ref) 1 ;; ret (Some tok)) ;;
                        strip_ref current_ref) p)).
  { intros _. unfold _current_ref.
    rewrite (bind_run_ok _git_branch_vv _ p git_output [cmd_branch_vv] p)
      by reflexivity.
    rewrite result_mkRun. reflexivity. }
  rewrite (U (ret None)). clear U. rewrite Hr. cbn [negb].
  repeat split.
  - intros H1 S1. rewrite H1, S1. reflexivity.
  - intros H1 H2 S2. rewrite H1, H2, S2. reflexivity.
  - intros H1 H2 H3 S3. rewrite H1, H2, H3, S3. reflexivity.
Qed.

End HeadStateParser.

(** * Further properties of the class *)

(** ** What the status path runs and what it leaves *)

Lemma emits_getcwd {W} P : emits (W := W) P os_getcwd.
Proof. intros p. reflexivity. Qed.

Lemma emits_chdir {W} `{Host W} P path : emits P (os_chdir path).
Proof.
  intros p. unfold os_chdir.
  destruct (is_dir (world p) (Py.os_path_join (cwd p) path)); reflexivity.
Qed.

Lemma emits_exists {W} `{Host W} P path : emits P (os_path_exists path).
Proof. intros p. reflexivity. Qed.

Lemma emits_index {W A} P (l : list A) i : emits (W := W) P (index l i).
Proof. intros p. unfold index. destruct (nth_error l i); reflexivity. Qed.

Lemma emits_scan_remotes {W} P url lines :
  emits (W := W) P (scan_remotes url lines).
Proof. intros p. rewrite cmds_scan_remotes. reflexivity. Qed.

Ltac emits_all_step :=
  first
    [ apply emits_ret | apply emits_fatal | apply emits_raise
    | apply emits_getcwd | apply emits_chdir | apply emits_exists
    | apply emits_index | apply emits_scan_remotes
    | apply emits_execute; reflexivity
    | apply emits_bind; [ | intros ]
    | match goal with
      | |- emits _ (if ?b then _ else _) => destruct b
      | |- emits _ (match ?x with _ => _ end) => destruct x
      end ].

Ltac emits_all := repeat emits_all_step.

Lemma keeps_world_readonly {W A} (c : M W A) : readonly c -> keeps_world c.
Proof. intros Hc p. rewrite Hc. reflexivity. Qed.

Lemma keeps_world_chdir {W} `{Host W} path : keeps_world (os_chdir path).
Proof.
  intros p. unfold os_chdir.
  destruct (is_dir (world p) (Py.os_path_join (cwd p) path)); reflexivity.
Qed.

Lemma keeps_world_bind {W A B} (c : M W A) (f : A -> M W B) :
  keeps_world c -> (forall a, keeps_world (f a)) -> keeps_world (bind c f).
Proof.
  intros Hc Hf p. unfold bind.
  destruct (result (c p)) eqn:E; cbn [after]; try apply Hc.
  rewrite Hf. apply Hc.
Qed.

Ltac keeps_world_step :=
  first
    [ solve [apply keeps_world_readonly; eauto with run]
    | apply keeps_world_chdir
    | apply keeps_world_bind; [ | intros ]
    | match goal with
      | |- keeps_world (if ?b then _ else _) => destruct b
      | |- keeps_world (match ?x with _ => _ end) => destruct x
      end ].

Ltac keeps_world_tac := repeat keeps_world_step.

Lemma ensures_ret {W A} (a : A) (Q : A -> Prop) :
  Q a -> ensures (W := W) (ret a) Q.
Proof. intros H p b E. injection E as <-. exact H. Qed.

Lemma ensures_fatal {W A} msg (Q : A -> Prop) :
  ensures (W := W) (fatal_error msg) Q.
Proof. intros p b E. discriminate E. Qed.

Lemma ensures_bind {W A B} (c : M W A) (f : A -> M W B)
      (Q1 : A -> Prop) (Q : B -> Prop) :
  ensures c Q1 -> (forall a, Q1 a -> ensures (f a) Q) -> ensures (bind c f) Q.
Proof.
  intros Hc Hf p b. unfold bind.
  destruct (result (c p)) as [a| |] eqn:E; cbn [result]; try discriminate.
  intros R. exact (Hf a (Hc p a E) _ _ R).
Qed.

Lemma ensures_any {W A} (c : M W A) : ensures c (fun _ => True).
Proof. intros p a _. exact I. Qed.

Lemma ensures_bind_any {W A B} (c : M W A) (f : A -> M W B) (Q : B -> Prop) :
  (forall a, ensures (f a) Q) -> ensures (bind c f) Q.
Proof.
  intros Hf. apply (ensures_bind c f (fun _ => True)); [apply ensures_any|].
  intros a _. apply Hf.
Qed.

Section StatusPath.
Context {W : Type} `{HW : Host W} `{X : Externals}.

Lemma runs_only_silent P {A} (c : M W A) :
  emits (fun _ => false) c -> runs_only P c.
Proof.
  intros H p. specialize (H p).
  destruct (cmds (c p)); [constructor | discriminate H].
Qed.

Lemma runs_only_bind P {A B} (c : M W A) (f : A -> M W B) :
  runs_only P c -> (forall a, runs_only P (f a)) -> runs_only P (bind c f).
Proof.
  intros Hc Hf p. rewrite cmds_bind. apply Forall_app. split; [apply Hc|].
  destruct (result (c p)); [apply Hf | constructor | constructor].
Qed.

Lemma runs_only_execute (P : list string -> Prop) cmd s o :
  P cmd -> runs_only P (execute_subprocess cmd s o).
Proof.
  intros HP p. rewrite cmds_execute. constructor; [exact HP | constructor].
Qed.

Ltac status_query_tac :=
  unfold status_query;
  first [ left; reflexivity
        | right; left; reflexivity
        | do 2 right; left; reflexivity
        | do 3 right; left; eexists; reflexivity
        | do 4 right; left; reflexivity
        | do 5 right; reflexivity ].

Ltac runs_only_step :=
  first
    [ apply runs_only_silent;
      first [ apply emits_ret | apply emits_fatal | apply emits_raise
            | apply emits_getcwd | apply emits_chdir | apply emits_exists
            | apply emits_index | apply emits_scan_remotes ]
    | apply runs_only_execute; status_query_tac
    | apply runs_only_bind; [ | intros ]
    | progress cbv zeta
    | match goal with
      | |- runs_only _ (if ?b then _ else _) => destruct b
      | |- runs_only _ (match ?x with _ => _ end) => destruct x
      end ].

Lemma runs_only_current_ref : runs_only status_query _current_ref.
Proof.
  unfold _current_ref, _git_branch_vv, group1_or_fatal, strip_ref.
  repeat runs_only_step.
Qed.

Lemma runs_only_expected_ref_of self :
  runs_only status_query (expected_ref_of self).
Proof.
  unfold expected_ref_of, _determine_remote_name, _git_remote_verbose.
  repeat runs_only_step.
Qed.

Lemma runs_only_check_sync self stat path :
  runs_only status_query (_check_sync self stat path).
Proof.
  unfold _check_sync, _check_sync_logic.
  repeat first
    [ apply runs_only_current_ref | apply runs_only_expected_ref_of
    | runs_only_step ];
    unfold _git_log_hash, _git_revparse_commit; repeat runs_only_step.
Qed.

Lemma runs_only_status_summary self stat path :
  runs_only status_query (_status_summary self stat path).
Proof.
  unfold _status_summary, _git_status_porcelain_v1z, _git_status_verbose.
  repeat runs_only_step.
Qed.

Lemma status_query_is_not_modifying cmd :
  status_query cmd -> is_modifying_cmd cmd = false.
Proof.
  intros [-> | [-> | [-> | [[ref ->] | [-> | ->]]]]]; reflexivity.
Qed.

Lemma keeps_world_check_sync self stat path :
  keeps_world (_check_sync self stat path).
Proof.
  unfold _check_sync, _check_sync_logic.
  repeat first [ progress cbv zeta | keeps_world_step ].
Qed.

Lemma keeps_world_status_summary self stat path :
  keeps_world (_status_summary self stat path).
Proof.
  unfold _status_summary.
  repeat first [ progress cbv zeta | keeps_world_step ].
Qed.

(** X1. [status] only gathers information: however it ends, every
    command it handed to the executor is one of six queries, with exactly
    the arguments the class gives them - [git log -1 --format="%H"],
    [git remote --verbose], [git branch --verbose --verbose],
    [git rev-parse --quiet --verify <ref>^{commit}],
    [git status --untracked-files=no --porcelain -z] and [git status] -
    and none is a clone, fetch, checkout or [git remote add]. *)
Theorem status_only_gathers_information
        (self : GitRepository) (stat : ExternalStatus)
        (repo_dir_path : string) (p : Proc W) :
  Forall status_query (cmds (status self stat repo_dir_path p))
  /\ existsb is_modifying_cmd (cmds (status self stat repo_dir_path p))
     = false.
Proof.
  assert (E : runs_only status_query (status self stat repo_dir_path)).
  { unfold status.
    apply runs_only_bind; [apply runs_only_check_sync | intros].
    apply runs_only_bind;
      [apply runs_only_silent; apply emits_exists | intros].
    destruct a0;
      [apply runs_only_status_summary
      | apply runs_only_silent; apply emits_ret]. }
  split; [apply E|].
  specialize (E p). revert E.
  generalize (cmds (status self stat repo_dir_path p)).
  induction l as [|cmd l IH]; intros H; [reflexivity|].
  inversion H as [|? ? H1 H2]; subst. cbn [existsb].
  rewrite (status_query_is_not_modifying cmd H1), (IH H2). reflexivity.
Qed.

End StatusPath.

(** ** The status report *)
Section StatusReport.
Context {W : Type} `{HW : Host W} `{X : Externals}.

Lemma ensures_check_sync self stat path :
  ensures (_check_sync self stat path)
    (fun s => is_sync_verdict (sync_state s) = true
              /\ clean_state s = clean_state stat
              /\ status_output s = status_output stat).
Proof.
  unfold _check_sync.
  apply ensures_bind_any; intros e.
  destruct (negb e); [apply ensures_ret; repeat split|].
  apply ensures_bind_any; intros g.
  destruct (negb g); [apply ensures_ret; repeat split|].
  unfold _check_sync_logic.
  do 2 (apply ensures_bind_any; intros).
  apply ensures_bind_any; intros current_ref. cbv zeta.
  apply ensures_bind_any; intros expected_ref.
  apply ensures_bind_any; intros name.
  apply (ensures_bind _ _
           (fun s => is_sync_verdict (sync_state s) = true
                     /\ clean_state s = clean_state stat
                     /\ status_output s = status_output stat)).
  - destruct (String.eqb (Py.strip_chars Py.dq current_ref) EMPTY_STR).
    + apply ensures_ret. repeat split.
    + apply ensures_bind_any; intros [revparse_status expected_ref_hash].
      destruct (negb (Z.eqb revparse_status 0)); apply ensures_ret.
      * repeat split.
      * unfold compare_refs.
        destruct (String.eqb _ expected_ref_hash); repeat split.
  - intros s Hs. apply ensures_bind_any; intros _.
    apply ensures_ret. exact Hs.
Qed.

Lemma ensures_status_summary self stat path :
  ensures (_status_summary self stat path)
    (fun s => sync_state s = sync_state stat
              /\ current_version s = current_version stat
              /\ expected_version s = expected_version stat
              /\ (clean_state s = DIRTY \/ clean_state s = STATUS_OK)).
Proof.
  unfold _status_summary.
  do 2 (apply ensures_bind_any; intros).
  apply ensures_bind_any; intros git_output. cbv zeta.
  apply ensures_bind_any; intros out.
  apply ensures_bind_any; intros _.
  apply ensures_ret.
  destruct (_status_v1z_is_dirty git_output); repeat split; auto.
Qed.

(** a sync check that returns leaves the process as it found it *)
Lemma check_sync_leaves_process self stat path (p : Proc W) s1 :
  Py.startswith (cwd p) "/" = true ->
  result (_check_sync self stat path p) = Ok s1 ->
  after (_check_sync self stat path p) = p.
Proof.
  intros Habs R.
  assert (Hw : world (after (_check_sync self stat path p)) = world p)
    by apply keeps_world_check_sync.
  assert (Hc : cwd (after (_check_sync self stat path p)) = cwd p).
  { revert R. unfold _check_sync.
    rewrite (bind_run_ok (os_path_exists path) _ p _ [] p eq_refl).
    rewrite result_mkRun. cbn [after].
    destruct (negb (path_exists (world p) (Py.os_path_join (cwd p) path)));
      [reflexivity|].
    rewrite (bind_run_ok (os_path_exists _) _ p _ [] p eq_refl).
    rewrite result_mkRun. cbn [after].
    destruct (negb (path_exists (world p) _)); [reflexivity|].
    intros R. apply check_sync_logic_returns_home; [exact Habs|].
    rewrite R. reflexivity. }
  destruct (after (_check_sync self stat path p)) as [c w], p as [c0 w0].
  simpl in Hw, Hc. subst. reflexivity.
Qed.

(** X2. Whenever [status] returns, for a process that starts in an
    absolute directory: the sync state of the report is one of STATUS_OK,
    MODEL_MODIFIED, UNKNOWN and STATUS_ERROR (never DIRTY, never left
    unset); when the working-copy path exists, the summary has run and the
    clean state is DIRTY or STATUS_OK; when the path does not exist, the
    summary is skipped: the clean state and the status output are left as
    they were and the sync state is STATUS_ERROR. *)
Theorem status_report_states
        (self : GitRepository) (stat s : ExternalStatus)
        (repo_dir_path : string) (p : Proc W) :
  Py.startswith (cwd p) "/" = true ->
  result (status self stat repo_dir_path p) = Ok s ->
  is_sync_verdict (sync_state s) = true
  /\ (path_exists (world p) (Py.os_path_join (cwd p) repo_dir_path) = true ->
      clean_state s = DIRTY \/ clean_state s = STATUS_OK)
  /\ (path_exists (world p) (Py.os_path_join (cwd p) repo_dir_path) = false ->
      clean_state s = clean_state stat
      /\ status_output s = status_output stat
      /\ sync_state s = STATUS_ERROR).
Proof.
  intros Habs R. unfold status in R.
  destruct (result (_check_sync self stat repo_dir_path p)) as [s1|m|e] eqn:E1;
    [ | rewrite (bind_fatal _ _ p m E1) in R; discriminate R
      | rewrite (bind_uncaught _ _ p e E1) in R; discriminate R ].
  rewrite (bind_ok _ _ p s1 E1), result_mkRun in R.
  rewrite (check_sync_leaves_process self stat repo_dir_path p s1 Habs E1) in R.
  rewrite (bind_run_ok (os_path_exists repo_dir_path) _ p _ [] p eq_refl),
    result_mkRun in R.
  destruct (ensures_check_sync self stat repo_dir_path p s1 E1) as (V & C & O).
  destruct (path_exists (world p) (Py.os_path_join (cwd p) repo_dir_path))
    eqn:He.
  - destruct (ensures_status_summary self s1 repo_dir_path p s R)
      as (S & _ & _ & D).
    rewrite S. split; [exact V|]. split; [intros _; exact D|].
    intros H; discriminate H.
  - injection R as <-. split; [exact V|]. split; [intros H; discriminate H|].
    intros _. split; [exact C|]. split; [exact O|].
    revert E1. unfold _check_sync.
    rewrite (bind_run_ok (os_path_exists repo_dir_path) _ p _ [] p eq_refl).
    rewrite result_mkRun, He. cbn [negb].
    intros E1. injection E1 as <-. reflexivity.
Qed.

(** X3. In a working copy that can be entered and left, the status
    summary runs the porcelain status query (tracked files only) and the
    verbose status query, in that order; it marks the report DIRTY exactly
    when the porcelain output is not empty and STATUS_OK when it is empty,
    stores the verbose output, leaves the other fields alone and puts the
    process back where it was. *)
Theorem status_summary_dirty_iff_output
        (self : GitRepository) (stat : ExternalStatus)
        (repo_dir_path : string) (p : Proc W) :
  let dir := Py.os_path_join (cwd p) repo_dir_path in
  let porcelain := snd (query (world p) dir cmd_status_porcelain) in
  let verbose := snd (query (world p) dir cmd_status_verbose) in
  Py.startswith (cwd p) "/" = true ->
  is_dir (world p) (cwd p) = true ->
  is_dir (world p) dir = true ->
  _status_summary self stat repo_dir_path p
  = mkRun (Ok {| sync_state := sync_state stat;
                 clean_state := if Py.truthy porcelain then DIRTY
                                else STATUS_OK;
                 current_version := current_version stat;
                 expected_version := expected_version stat;
                 status_output := verbose |})
          [cmd_status_porcelain; cmd_status_verbose] p.
Proof.
  intros dir porcelain verbose Habs Hhome Hdir.
  set (here := mkProc dir (world p)).
  unfold _status_summary.
  rewrite (bind_run_ok os_getcwd _ p (cwd p) [] p) by reflexivity.
  rewrite (bind_run_ok (os_chdir repo_dir_path) _ p tt [] here)
    by (unfold os_chdir; fold dir; rewrite Hdir; reflexivity).
  rewrite (bind_run_ok _git_status_porcelain_v1z _ here porcelain
             [cmd_status_porcelain] here) by reflexivity.
  cbv zeta.
  rewrite (bind_run_ok _git_status_verbose _ here verbose
             [cmd_status_verbose] here) by reflexivity.
  assert (C : os_chdir (cwd p) here = mkRun (Ok tt) [] p).
  { rewrite (chdir_home (cwd p) here Habs Hhome). destruct p; reflexivity. }
  rewrite (bind_run_ok (os_chdir (cwd p)) _ here tt [] p C).
  unfold _status_v1z_is_dirty.
  destruct (Py.truthy porcelain); reflexivity.
Qed.

End StatusReport.

Lemma status_report_states_witness :
  exists s,
    result (status (X := sample_externals) master_decl stat0 "ext"
              (mkProc "/work" dirty_world)) = Ok s
    /\ is_sync_verdict (sync_state s) = true
    /\ (clean_state s = DIRTY \/ clean_state s = STATUS_OK).
Proof.
  eexists. split; [reflexivity|].
  destruct (status_report_states (HW := script_host) (X := sample_externals)
              master_decl stat0 _ "ext" (mkProc "/work" dirty_world)
              ltac:(reflexivity) ltac:(reflexivity)) as (V & D & _).
  split; [exact V|]. apply D. reflexivity.
Defined.

Lemma status_summary_dirty_witness :
  result (_status_summary master_decl stat0 "ext" (mkProc "/work" dirty_world))
  = Ok {| sync_state := DEFAULT; clean_state := DIRTY;
          current_version := EmptyString; expected_version := EmptyString;
          status_output := "HEAD detached at v1.0" |}.
Proof.
  rewrite (status_summary_dirty_iff_output (HW := script_host) master_decl
             stat0 "ext" (mkProc "/work" dirty_world)
             ltac:(reflexivity) ltac:(reflexivity) ltac:(reflexivity)).
  reflexivity.
Defined.

(** ** The head-state parser on lines of the documented shapes *)

Lemma space_is_not_word c : Py.isspace c = true -> Re.word c = false.
Proof.
  destruct c as [b0 b1 b2 b3 b4 b5 b6 b7].
  destruct b0, b1, b2, b3, b4, b5, b6, b7;
    intros H; try reflexivity; vm_compute in H; discriminate H.
Qed.

Lemma word_is_not_space c : Re.word c = true -> Py.isspace c = false.
Proof.
  intros H. destruct (Py.isspace c) eqn:E; [|reflexivity].
  rewrite (space_is_not_word c E) in H. discriminate H.
Qed.

Lemma refchar_is_not_space c : Re.refchar c = true -> not_space c = true.
Proof.
  destruct c as [b0 b1 b2 b3 b4 b5 b6 b7].
  destruct b0, b1, b2, b3, b4, b5, b6, b7;
    intros H; try reflexivity; vm_compute in H; discriminate H.
Qed.

Lemma all_chars_weaken (f g : ascii -> bool) s :
  (forall c, f c = true -> g c = true) ->
  all_chars f s = true -> all_chars g s = true.
Proof.
  intros Hfg. induction s as [|c r IH]; simpl; [reflexivity|].
  intros H. apply andb_true_iff in H as [H1 H2].
  rewrite (Hfg c H1), (IH H2). reflexivity.
Qed.

Lemma rstrip_by_clean p s :
  all_chars (fun c => negb (p c)) s = true -> Py.rstrip_by p s = s.
Proof.
  induction s as [|c r IH]; simpl; [reflexivity|].
  intros H. apply andb_true_iff in H as [H1 H2].
  rewrite (IH H2). apply negb_true_iff in H1. rewrite H1.
  destruct r; reflexivity.
Qed.

Lemma lstrip_by_clean p s :
  all_chars (fun c => negb (p c)) s = true -> Py.lstrip_by p s = s.
Proof.
  destruct s as [|c r]; simpl; [reflexivity|].
  intros H. apply andb_true_iff in H as [H1 _].
  apply negb_true_iff in H1. rewrite H1. reflexivity.
Qed.

(** stripping a string without whitespace gives it back *)
Lemma strip_clean s : all_chars not_space s = true -> Py.strip s = s.
Proof.
  intros H. unfold Py.strip.
  rewrite (lstrip_by_clean Py.isspace s H). apply rstrip_by_clean. exact H.
Qed.

Lemma drop_append l s : Re.drop (String.length l) (l ++ s) = s.
Proof. induction l as [|c l IH]; simpl; [reflexivity | exact IH]. Qed.

Lemma length_append_string (a b : string) :
  String.length (a ++ b) = String.length a + String.length b.
Proof. induction a as [|c a IH]; simpl; [reflexivity | rewrite IH; reflexivity]. Qed.

Lemma take_append a b : Re.take (String.length a) (a ++ b) = a.
Proof. induction a as [|c a IH]; simpl; [reflexivity | rewrite IH; reflexivity]. Qed.

Lemma take_consumed a b :
  Re.take (String.length (a ++ b) - String.length b) (a ++ b) = a.
Proof.
  rewrite length_append_string.
  replace (String.length a + String.length b - String.length b)
    with (String.length a) by lia.
  apply take_append.
Qed.

Lemma m_lit_append {A} l s g (k : string -> option string -> option A) :
  Re.m (Re.Lit l) (l ++ s) g k = k s g.
Proof. cbn [Re.m]. rewrite prefix_append, drop_append. reflexivity. Qed.

Lemma plus_match_stops {A} cls s (k : string -> option A) :
  stops cls s = true -> Re.plus_match cls s k = None.
Proof.
  destruct s as [|c r]; simpl; [reflexivity|].
  intros H. apply negb_true_iff in H. rewrite H. reflexivity.
Qed.

(** a greedy [+] takes the whole run when what follows the run matches *)
Lemma plus_match_greedy {A} cls x s (k : string -> option A) v :
  Py.truthy x = true -> all_chars cls x = true -> stops cls s = true ->
  k s = Some v ->
  Re.plus_match cls (x ++ s) k = Some v.
Proof.
  intros Hx Hall Hstop Hk.
  induction x as [|c r IH]; [discriminate Hx|].
  simpl in Hall. apply andb_true_iff in Hall as [Hc Hr].
  cbn [append Re.plus_match]. rewrite Hc.
  destruct r as [|d r'].
  - cbn [append]. rewrite (plus_match_stops cls s k Hstop). exact Hk.
  - rewrite (IH eq_refl Hr). reflexivity.
Qed.

Lemma search_of_match r s mo :
  Re.match_here r s = Some mo -> Re.search r s = Some mo.
Proof. intros H. destruct s; cbn [Re.search]; rewrite H; reflexivity. Qed.

Lemma stops_space_word x s :
  Py.truthy x = true -> all_chars Re.word x = true ->
  stops Re.space (x ++ s) = true.
Proof.
  destruct x as [|c r]; [discriminate|]. intros _ H.
  simpl in H. apply andb_true_iff in H as [H _].
  cbn [append stops]. unfold Re.space. rewrite (word_is_not_space c H).
  reflexivity.
Qed.

Lemma stops_word_space x s :
  Py.truthy x = true -> all_chars Re.space x = true ->
  stops Re.word (x ++ s) = true.
Proof.
  destruct x as [|c r]; [discriminate|]. intros _ H.
  simpl in H. apply andb_true_iff in H as [H _].
  cbn [append stops]. rewrite (space_is_not_word c H). reflexivity.
Qed.

(** the optional [(?:[\w]+[\s]+)?] takes a word and the blanks after it *)
Lemma m_opt_word_blanks {A} w sp s g
      (k : string -> option string -> option A) v :
  Py.truthy w = true -> all_chars Re.word w = true ->
  Py.truthy sp = true -> all_chars Re.space sp = true ->
  stops Re.space s = true ->
  k s g = Some v ->
  Re.m (Re.Opt (Re.Cat (Re.Plus Re.word) (Re.Plus Re.space)))
       (w ++ sp ++ s) g k = Some v.
Proof.
  intros Hw Aw Hsp Asp Hs Hk. cbn [Re.m].
  rewrite (plus_match_greedy Re.word w (sp ++ s) _ v Hw Aw
             (stops_word_space sp s Hsp Asp)); [reflexivity|].
  apply (plus_match_greedy Re.space sp s _ v Hsp Asp Hs). exact Hk.
Qed.

(** [RE_DETACHED_AT] on a line [* (<word> detached at <name>)...] *)
Lemma detached_at_matches w sp name rest :
  Py.truthy w = true -> all_chars Re.word w = true ->
  Py.truthy sp = true -> all_chars Re.space sp = true ->
  Py.truthy name = true -> all_chars Re.refchar name = true ->
  Re.search RE_DETACHED_AT
    ("* (" ++ w ++ sp ++ "detached at " ++ name ++ ")" ++ rest)
  = Some {| Re.group1 := Some name |}.
Proof.
  intros Hw Aw Hsp Asp Hn An. apply search_of_match.
  unfold Re.match_here, RE_DETACHED_AT.
  cbn [Re.m]. fold (Re.m (A := Re.match_obj)).
  change (Re.m (Re.Lit "* (")
            ("* (" ++ w ++ sp ++ "detached at " ++ name ++ ")" ++ rest) None
            (fun s' g' =>
               Re.m (Re.Opt (Re.Cat (Re.Plus Re.word) (Re.Plus Re.space)))
                 s' g'
                 (fun s1 g1 =>
                    Re.m (Re.Lit "detached at ") s1 g1
                      (fun s2 g2 =>
                         Re.m (Re.Group (Re.Plus Re.refchar)) s2 g2
                           (fun s3 g3 =>
                              Re.m (Re.Lit ")") s3 g3
                                (fun _ g => Some {| Re.group1 := g |})))))
          = Some {| Re.group1 := Some name |}).
  rewrite m_lit_append.
  apply m_opt_word_blanks; try assumption; [reflexivity|].
  rewrite m_lit_append. cbn [Re.m].
  apply plus_match_greedy; try assumption; [reflexivity|].
  rewrite prefix_append. rewrite take_consumed. reflexivity.
Qed.

(** [RE_DETACHED_FROM] on a line
    [* (<word> detached from <name>) <hash>...] *)
Lemma detached_from_matches w sp name sp2 hash rest :
  Py.truthy w = true -> all_chars Re.word w = true ->
  Py.truthy sp = true -> all_chars Re.space sp = true ->
  Py.truthy name = true -> all_chars Re.refchar name = true ->
  Py.truthy sp2 = true -> all_chars Re.space sp2 = true ->
  Py.truthy hash = true -> all_chars Re.word hash = true ->
  stops Re.word rest = true ->
  Re.search RE_DETACHED_FROM
    ("* (" ++ w ++ sp ++ "detached from " ++ name ++ ")" ++ sp2 ++ hash
     ++ rest)
  = Some {| Re.group1 := Some hash |}.
Proof.
  intros Hw Aw Hsp Asp Hn An Hsp2 Asp2 Hh Ah Hrest.
  apply search_of_match.
  unfold Re.match_here, RE_DETACHED_FROM.
  change (Re.m (Re.Lit "* (")
            ("* (" ++ w ++ sp ++ "detached from " ++ name ++ ")" ++ sp2
             ++ hash ++ rest) None
            (fun s' g' =>
               Re.m (Re.Opt (Re.Cat (Re.Plus Re.word) (Re.Plus Re.space)))
                 s' g'
                 (fun s1 g1 =>
                    Re.m (Re.Lit "detached from ") s1 g1
                      (fun s2 g2 =>
                         Re.m (Re.Plus Re.refchar) s2 g2
                           (fun s3 g3 =>
                              Re.m (Re.Lit ")") s3 g3
                                (fun s4 g4 =>
                                   Re.m (Re.Plus Re.space) s4 g4
                                     (fun s5 g5 =>
                                        Re.m (Re.Group (Re.Plus Re.word)) s5 g5
                                          (fun _ g =>
                                             Some {| Re.group1 := g |})))))))
          = Some {| Re.group1 := Some hash |}).
  rewrite m_lit_append.
  apply m_opt_word_blanks; try assumption; [reflexivity|].
  rewrite m_lit_append. cbn [Re.m].
  apply plus_match_greedy; try assumption; [reflexivity|].
  rewrite prefix_append, drop_append.
  apply plus_match_greedy; try assumption;
    [apply stops_space_word; assumption|].
  apply plus_match_greedy; try assumption.
  rewrite take_consumed. reflexivity.
Qed.

Lemma split_tokens_clean s :
  Forall (fun t => all_chars not_space t = true) (Py.split s).
Proof.
  induction s as [|c r IH]; cbn [Py.split]; [constructor|].
  destruct (Py.isspace c) eqn:Ec; [exact IH|].
  assert (Hc : not_space c = true) by (unfold not_space; rewrite Ec; reflexivity).
  destruct r as [|d r'].
  - constructor; [|constructor]. cbn [all_chars]. rewrite Hc. reflexivity.
  - destruct (Py.isspace d).
    + constructor; [|exact IH]. cbn [all_chars]. rewrite Hc. reflexivity.
    + destruct (Py.split (String d r')) as [|t ts].
      * constructor; [|constructor]. cbn [all_chars]. rewrite Hc. reflexivity.
      * inversion IH as [|? ? Ht Hts]; subst.
        constructor; [|exact Hts]. cbn [all_chars]. rewrite Hc. exact Ht.
Qed.

Lemma active_line_none lines :
  forallb (fun l => negb (Py.startswith l "*")) lines = true ->
  active_line lines = EmptyString.
Proof.
  induction lines as [|l rest IH]; cbn [forallb active_line]; [reflexivity|].
  intros H. apply andb_true_iff in H as [H1 H2].
  apply negb_true_iff in H1. rewrite H1. exact (IH H2).
Qed.

Lemma contains_keyword_at pre u :
  Py.contains (pre ++ "detached at " ++ u) "detached at" = true.
Proof.
  apply contains_append_r.
  change ("detached at " ++ u) with ("detached at" ++ (" " ++ u)).
  apply contains_prefix.
Qed.

Lemma contains_keyword_from pre u :
  Py.contains (pre ++ "detached from " ++ u) "detached from" = true.
Proof.
  apply contains_append_r.
  change ("detached from " ++ u) with ("detached from" ++ (" " ++ u)).
  apply contains_prefix.
Qed.

Lemma append_assoc_string (a b c : string) : (a ++ b) ++ c = a ++ b ++ c.
Proof. induction a as [|x a IH]; simpl; [reflexivity | rewrite IH; reflexivity]. Qed.

Section HeadStates.
Context {W : Type} `{HW : Host W}.

(** what [_current_ref] returns, read off the listing: the active line is
    classified by the keywords it contains, in the order of the source *)
Lemma current_ref_result (p : Proc W) :
  let git_output := snd (query (world p) (cwd p) cmd_branch_vv) in
  let ref := active_line (Py.splitlines git_output) in
  let group (mo : option Re.match_obj) (msg : string) : outcome string :=
    match mo with
    | None => Fatal (msg ++ dev_error_tail ref git_output)
    | Some mobj =>
        match Re.group1 mobj with
        | Some s => Ok (Py.strip s)
        | None => Uncaught AttributeError
        end
    end in
  result (_current_ref p)
  = if negb (Py.truthy ref) then Ok EMPTY_STR
    else if Py.contains ref "detached at"
         then group (Re.search RE_DETACHED_AT ref) msg_detached_at
    else if Py.contains ref "detached from"
         then group (Re.search RE_DETACHED_FROM ref) msg_detached_from
    else if Py.contains ref "["
         then group (Re.search RE_TRACKING ref) msg_tracking
    else match nth_error (Py.split ref) 1 with
         | Some tok => Ok (Py.strip tok)
         | None => Uncaught IndexError
         end.
Proof.
  intros git_output ref group.
  unfold _current_ref.
  rewrite (bind_run_ok _git_branch_vv _ p git_output [cmd_branch_vv] p)
    by reflexivity.
  rewrite result_mkRun. cbv zeta. fold git_output. fold ref.
  destruct (negb (Py.truthy ref)); [reflexivity|].
  destruct (Py.contains ref "detached at").
  { unfold group. destruct (Re.search RE_DETACHED_AT ref) as [[[s|]]|];
      reflexivity. }
  destruct (Py.contains ref "detached from").
  { unfold group. destruct (Re.search RE_DETACHED_FROM ref) as [[[s|]]|];
      reflexivity. }
  destruct (Py.contains ref "[").
  { unfold group. destruct (Re.search RE_TRACKING ref) as [[[s|]]|];
      reflexivity. }
  unfold bind, index.
  destruct (nth_error (Py.split ref) 1); reflexivity.
Qed.

(** X4. A listing in which no line starts with the marker (also the empty
    listing) gives the empty reference: the parser returns, it raises
    nothing. *)
Theorem no_active_line_gives_empty_ref (p : Proc W) :
  forallb (fun l => negb (Py.startswith l "*"))
    (Py.splitlines (snd (query (world p) (cwd p) cmd_branch_vv))) = true ->
  result (_current_ref p) = Ok EMPTY_STR.
Proof.
  intros H. rewrite current_ref_result. cbv zeta.
  rewrite (active_line_none _ H). reflexivity.
Qed.

(** X5. When the active line is [* (<word> detached at <name>)...], with
    [<name>] made of the characters a reference may have (word characters,
    dash, dot, slash), the current reference is [<name>], whatever follows
    the closing parenthesis. *)
Theorem detached_at_line_gives_name (p : Proc W) (w sp name rest : string) :
  Py.truthy w = true -> all_chars Re.word w = true ->
  Py.truthy sp = true -> all_chars Re.space sp = true ->
  Py.truthy name = true -> all_chars Re.refchar name = true ->
  active_line (Py.splitlines (snd (query (world p) (cwd p) cmd_branch_vv)))
  = "* (" ++ w ++ sp ++ "detached at " ++ name ++ ")" ++ rest ->
  result (_current_ref p) = Ok name.
Proof.
  intros Hw Aw Hsp Asp Hn An Hline.
  rewrite current_ref_result. cbv zeta. rewrite Hline.
  change (Py.truthy ("* (" ++ w ++ sp ++ "detached at " ++ name ++ ")" ++ rest))
    with true.
  cbn [negb].
  assert (K : Py.contains
                ("* (" ++ w ++ sp ++ "detached at " ++ name ++ ")" ++ rest)
                "detached at" = true).
  { do 3 (apply contains_append_r).
    exact (contains_keyword_at EmptyString _). }
  rewrite K, (detached_at_matches w sp name rest Hw Aw Hsp Asp Hn An).
  cbn [Re.group1].
  rewrite (strip_clean name
             (all_chars_weaken _ _ _ refchar_is_not_space An)).
  reflexivity.
Qed.

(** X6. When the active line is
    [* (<word> detached from <name>) <hash>...], the hash followed by
    the end of the line or a character that is not a word character, and
    the line nowhere contains the words "detached at", the current
    reference is [<hash>]. *)
Theorem detached_from_line_gives_hash
        (p : Proc W) (w sp name sp2 hash rest : string) :
  let ref := "* (" ++ w ++ sp ++ "detached from " ++ name ++ ")" ++ sp2
             ++ hash ++ rest in
  Py.truthy w = true -> all_chars Re.word w = true ->
  Py.truthy sp = true -> all_chars Re.space sp = true ->
  Py.truthy name = true -> all_chars Re.refchar name = true ->
  Py.truthy sp2 = true -> all_chars Re.space sp2 = true ->
  Py.truthy hash = true -> all_chars Re.word hash = true ->
  stops Re.word rest = true ->
  Py.contains ref "detached at" = false ->
  active_line (Py.splitlines (snd (query (world p) (cwd p) cmd_branch_vv)))
  = ref ->
  result (_current_ref p) = Ok hash.
Proof.
  intros ref Hw Aw Hsp Asp Hn An Hsp2 Asp2 Hh Ah Hrest Hno Hline.
  rewrite current_ref_result. cbv zeta. rewrite Hline.
  change (Py.truthy ref) with true. cbn [negb]. rewrite Hno.
  assert (K : Py.contains ref "detached from" = true).
  { unfold ref. do 3 (apply contains_append_r).
    exact (contains_keyword_from EmptyString _). }
  rewrite K.
  unfold ref at 1.
  rewrite (detached_from_matches w sp name sp2 hash rest
             Hw Aw Hsp Asp Hn An Hsp2 Asp2 Hh Ah Hrest).
  cbn [Re.group1].
  rewrite (strip_clean hash).
  - reflexivity.
  - apply (all_chars_weaken Re.word); [|exact Ah].
    intros c Hc. unfold not_space. rewrite (word_is_not_space c Hc).
    reflexivity.
Qed.

(** X7. An active line with none of the keywords ("detached at",
    "detached from", an opening bracket) gives its second
    whitespace-separated token, as it stands; with fewer than two tokens
    the parser raises IndexError. *)
Theorem plain_line_gives_second_token (p : Proc W) :
  let ref := active_line
               (Py.splitlines (snd (query (world p) (cwd p) cmd_branch_vv))) in
  Py.truthy ref = true ->
  Py.contains ref "detached at" = false ->
  Py.contains ref "detached from" = false ->
  Py.contains ref "[" = false ->
  result (_current_ref p)
  = match Py.split ref with
    | _ :: tok :: _ => Ok tok
    | _ => Uncaught IndexError
    end.
Proof.
  intros ref Ht H1 H2 H3.
  rewrite current_ref_result. cbv zeta. fold ref.
  rewrite Ht, H1, H2, H3. cbn [negb].
  pose proof (split_tokens_clean ref) as F.
  destruct (Py.split ref) as [|t0 [|t1 ts]]; try reflexivity.
  cbn [nth_error].
  inversion F as [|? ? _ F1]; subst. inversion F1 as [|? ? C1 _]; subst.
  rewrite (strip_clean t1 C1). reflexivity.
Qed.

End HeadStates.

(** ** Tracking branches *)

Lemma prefix_bracket_fails c t :
  not_bracket c = true -> String.prefix "[" (String c t) = false.
Proof.
  unfold not_bracket. intros H. apply negb_true_iff in H.
  cbn [String.prefix].
  destruct (ascii_dec "[" c) as [E|_]; [|reflexivity].
  subst c. discriminate H.
Qed.

(** the search for [RE_TRACKING] passes over text without a bracket *)
Lemma search_tracking_skips pre s :
  all_chars not_bracket pre = true ->
  Re.search RE_TRACKING (pre ++ s) = Re.search RE_TRACKING s.
Proof.
  induction pre as [|c pre IH]; [reflexivity|].
  cbn [all_chars]. intros H. apply andb_true_iff in H as [Hc Hpre].
  cbn [append Re.search].
  assert (N : Re.match_here RE_TRACKING (String c (pre ++ s)) = None).
  { unfold Re.match_here, RE_TRACKING. cbn [Re.m].
    rewrite (prefix_bracket_fails c _ Hc). reflexivity. }
  rewrite N. exact (IH Hpre).
Qed.

(** [RE_TRACKING] at a bracket [[<name>]] or [[<name>: <counts>]] *)
Lemma tracking_matches name ann rest :
  Py.truthy name = true -> all_chars Re.refchar name = true ->
  (ann = EmptyString
   \/ exists sp counts,
        ann = ":" ++ sp ++ counts
        /\ Py.truthy sp = true /\ all_chars Re.space sp = true
        /\ Py.truthy counts = true /\ all_chars Re.aheadchar counts = true
        /\ stops Re.space counts = true) ->
  Re.search RE_TRACKING ("[" ++ name ++ ann ++ "]" ++ rest)
  = Some {| Re.group1 := Some name |}.
Proof.
  intros Hn An Hann. apply search_of_match.
  unfold Re.match_here, RE_TRACKING.
  change (Re.m (Re.Lit "[") ("[" ++ name ++ ann ++ "]" ++ rest) None
            (fun s' g' =>
               Re.m (Re.Group (Re.Plus Re.refchar)) s' g'
                 (fun s1 g1 =>
                    Re.m (Re.Opt
                            (Re.Cat (Re.Lit ":")
                               (Re.Cat (Re.Plus Re.space)
                                  (Re.Plus Re.aheadchar)))) s1 g1
                      (fun s2 g2 =>
                         Re.m (Re.Lit "]") s2 g2
                           (fun _ g => Some {| Re.group1 := g |}))))
          = Some {| Re.group1 := Some name |}).
  rewrite m_lit_append. cbn [Re.m].
  destruct Hann as [->|(sp & counts & -> & Hsp & Asp & Hc & Ac & Sc)].
  - apply plus_match_greedy; try assumption; [reflexivity|].
    rewrite take_consumed.
    change (EmptyString ++ "]" ++ rest) with ("]" ++ rest).
    change (String.prefix ":" ("]" ++ rest)) with false.
    cbv iota. rewrite prefix_append. reflexivity.
  - apply plus_match_greedy; try assumption; [reflexivity|].
    rewrite take_consumed.
    change ((":" ++ sp ++ counts) ++ "]" ++ rest)
      with (":" ++ ((sp ++ counts) ++ "]" ++ rest)).
    rewrite prefix_append, drop_append, append_assoc_string.
    rewrite (plus_match_greedy Re.space sp (counts ++ "]" ++ rest) _
               {| Re.group1 := Some name |} Hsp Asp).
    + reflexivity.
    + destruct counts; [discriminate Hc | exact Sc].
    + apply plus_match_greedy; try assumption; [reflexivity|].
      rewrite prefix_append. reflexivity.
Qed.

Section TrackingBranch.
Context {W : Type} `{HW : Host W}.

(** X8. When the active line has no "detached at" and no "detached from"
    and its first opening bracket opens [[<name>]] or
    [[<name>: <counts>]] (the ahead/behind annotation), the current
    reference is the upstream [<name>]; the counts are ignored. *)
Theorem tracking_line_gives_upstream (p : Proc W) (pre name ann rest : string) :
  let ref := pre ++ "[" ++ name ++ ann ++ "]" ++ rest in
  Py.truthy pre = true -> all_chars not_bracket pre = true ->
  Py.truthy name = true -> all_chars Re.refchar name = true ->
  (ann = EmptyString
   \/ exists sp counts,
        ann = ":" ++ sp ++ counts
        /\ Py.truthy sp = true /\ all_chars Re.space sp = true
        /\ Py.truthy counts = true /\ all_chars Re.aheadchar counts = true
        /\ stops Re.space counts = true) ->
  Py.contains ref "detached at" = false ->
  Py.contains ref "detached from" = false ->
  active_line (Py.splitlines (snd (query (world p) (cwd p) cmd_branch_vv)))
  = ref ->
  result (_current_ref p) = Ok name.
Proof.
  intros ref Hpre Apre Hn An Hann H1 H2 Hline.
  rewrite current_ref_result. cbv zeta. rewrite Hline.
  assert (T : Py.truthy ref = true).
  { unfold ref. destruct pre; [discriminate Hpre | reflexivity]. }
  assert (K : Py.contains ref "[" = true).
  { unfold ref. apply contains_append_r. apply contains_prefix. }
  rewrite T, H1, H2, K. cbn [negb].
  unfold ref at 1.
  rewrite (search_tracking_skips pre _ Apre).
  rewrite (tracking_matches name ann rest Hn An Hann).
  cbn [Re.group1].
  rewrite (strip_clean name
             (all_chars_weaken _ _ _ refchar_is_not_space An)).
  reflexivity.
Qed.

End TrackingBranch.

(** *** The documented head states, as instances *)

Lemma no_active_line_witness :
  result (_current_ref
            (mkProc "/work/ext"
               (listing_world
                  (line "  master 9b75494 [origin/master] Initialize repository."))))
  = Ok EMPTY_STR.
Proof.
  apply (no_active_line_gives_empty_ref (HW := script_host)). reflexivity.
Defined.

Lemma detached_at_line_witness :
  result (_current_ref
            (mkProc "/work/ext"
               (listing_world
                  (line "* (HEAD detached at origin/feature2) 36418b4 Work on feature2"
                   ++ line "  master   9b75494 [origin/master] Initialize repository."))))
  = Ok "origin/feature2".
Proof.
  apply (detached_at_line_gives_name (HW := script_host) _
           "HEAD" " " "origin/feature2" " 36418b4 Work on feature2");
    reflexivity.
Defined.

Lemma detached_from_line_witness :
  result (_current_ref
            (mkProc "/work/ext"
               (listing_world
                  (line "* (HEAD detached from origin/feature2) 1c455f6 work on great new feature!"
                   ++ line "  master   9b75494 [origin/master] Initialize repository."))))
  = Ok "1c455f6".
Proof.
  apply (detached_from_line_gives_hash (HW := script_host) _
           "HEAD" " " "origin/feature2" " " "1c455f6"
           " work on great new feature!");
    reflexivity.
Defined.

Lemma plain_line_witness :
  result (_current_ref
            (mkProc "/work/ext"
               (listing_world
                  (line "  feature2 36418b4 [origin/feature2] Work on feature2"
                   ++ line "* feature3 36418b4 Work on feature2"))))
  = Ok "feature3".
Proof.
  apply (plain_line_gives_second_token (HW := script_host)
           (mkProc "/work/ext"
              (listing_world
                 (line "  feature2 36418b4 [origin/feature2] Work on feature2"
                  ++ line "* feature3 36418b4 Work on feature2"))));
    reflexivity.
Defined.

Lemma tracking_line_witness :
  result (_current_ref
            (mkProc "/work/ext"
               (listing_world
                  (line "* master 408a8920 [origin/master: ahead 3, behind 2] more junk"))))
  = Ok "origin/master".
Proof.
  apply (tracking_line_gives_upstream (HW := script_host) _
           "* master 408a8920 " "origin/master" ": ahead 3, behind 2"
           " more junk"); try reflexivity.
  right. exists " ", "ahead 3, behind 2". repeat split; reflexivity.
Defined.

(** ** What the validation decides, and what the sync check reports
    without comparing *)
Section Verdicts.
Context {W : Type} `{HW : Host W} `{X : Externals}.

Lemma cmds_current_ref (p : Proc W) : cmds (_current_ref p) = [cmd_branch_vv].
Proof.
  unfold _current_ref.
  rewrite (bind_run_ok _git_branch_vv _ p _ [cmd_branch_vv] p) by reflexivity.
  rewrite cmds_mkRun. cbv zeta.
  set (ref := active_line _).
  destruct (negb (Py.truthy ref)); [reflexivity|].
  destruct (Py.contains ref "detached at").
  { destruct (Re.search RE_DETACHED_AT ref) as [[[s|]]|]; reflexivity. }
  destruct (Py.contains ref "detached from").
  { destruct (Re.search RE_DETACHED_FROM ref) as [[[s|]]|]; reflexivity. }
  destruct (Py.contains ref "[").
  { destruct (Re.search RE_TRACKING ref) as [[[s|]]|]; reflexivity. }
  unfold bind, index.
  destruct (nth_error (Py.split ref) 1); reflexivity.
Qed.

Lemma revparse_returns ref (p : Proc W) :
  exists st out, result (_git_revparse_commit ref p) = Ok (st, out).
Proof. eexists _, _. reflexivity. Qed.

(** X9. The validation of a reference is decided by the three probes
    (tag, branch, hash), each of which is asked again by the unique-tag
    check and answers the same: no probe succeeds - fatal error naming
    the repository, the reference and the URL; tag and branch both succeed
    - fatal error; every other case - the validation returns true, so a
    reference that is only a hash is accepted. The process is left as it
    was and no [git checkout] is run. *)
Theorem validation_is_decided_by_the_probes
        (self : GitRepository) (ref : string) (remote_name : option string)
        (p : Proc W) (t b h : bool) :
  result (_ref_is_tag ref p) = Ok t ->
  result (_ref_is_branch ref remote_name p) = Ok b ->
  result (_ref_is_hash ref p) = Ok h ->
  result (_check_for_valid_ref self ref remote_name p)
  = (if negb (t || b || h) then Fatal (msg_invalid_ref self ref)
     else if t && b then Fatal (msg_tag self msg_both)
     else Ok true)
  /\ after (_check_for_valid_ref self ref remote_name p) = p
  /\ existsb is_checkout (cmds (_check_for_valid_ref self ref remote_name p))
     = false
  /\ Py.contains (msg_invalid_ref self ref) (_name self) = true
  /\ Py.contains (msg_invalid_ref self ref) ref = true
  /\ Py.contains (msg_invalid_ref self ref) (_url self) = true.
Proof.
  intros Ht Hb Hh.
  destruct (ends_inv _ _ _
              (check_for_valid_ref_ends self ref remote_name p t b h
                 Ht Hb Hh)) as [E1 E2].
  split; [exact E1|]. split; [exact E2|].
  split; [apply check_for_valid_ref_no_checkout|].
  unfold msg_invalid_ref.
  split; [|split].
  - do 2 (apply contains_append_r). apply contains_prefix.
  - do 6 (apply contains_append_r). apply contains_prefix.
  - do 11 (apply contains_append_r). apply contains_prefix.
Qed.

(** the end of [_check_sync_logic] in a working copy that can be entered
    and left, in terms of the two hash queries *)
Lemma check_sync_logic_ends
      (self : GitRepository) (stat : ExternalStatus)
      (repo_dir_path : string) (p : Proc W)
      (quoted e name h' : string) (st : Z) :
  let here := mkProc (Py.os_path_join (cwd p) repo_dir_path) (world p) in
  let h := Py.strip_chars Py.dq quoted in
  let named := set_expected_version (set_current_version stat name) e in
  Py.startswith (cwd p) "/" = true ->
  is_dir (world p) (cwd p) = true ->
  is_dir (world p) (cwd here) = true ->
  result (_git_log_hash here) = Ok quoted ->
  result (expected_ref_of self here) = Ok e ->
  result (_current_ref here) = Ok name ->
  result (_git_revparse_commit e here) = Ok (st, h') ->
  ends (_check_sync_logic self stat repo_dir_path p)
  = (Ok (set_sync_state named
           (if String.eqb h EMPTY_STR then UNKNOWN
            else if negb (Z.eqb st 0) then MODEL_MODIFIED
            else compare_refs h h')), p).
Proof.
  intros here h named Habs Hhome Hdir Hlog He Hname Hrev.
  change (is_dir (world p) (Py.os_path_join (cwd p) repo_dir_path) = true)
    in Hdir.
  unfold _check_sync_logic.
  rewrite (ends_bind_readonly os_getcwd _ p (cwd p)) by (auto with run).
  rewrite (ends_bind (os_chdir repo_dir_path) _ p tt here)
    by (unfold os_chdir; rewrite Hdir; reflexivity).
  rewrite (ends_bind_readonly _git_log_hash _ here quoted) by (auto with run).
  cbv zeta. fold h.
  rewrite (ends_bind_readonly (expected_ref_of self) _ here e)
    by (auto with run).
  rewrite (ends_bind_readonly _current_ref _ here name) by (auto with run).
  fold named.
  assert (C : os_chdir (cwd p) here = mkRun (Ok tt) [] p).
  { rewrite (chdir_home (cwd p) here Habs Hhome). destruct p; reflexivity. }
  destruct (String.eqb h EMPTY_STR).
  - rewrite (ends_bind_readonly (ret (set_sync_state named UNKNOWN)) _ here
               (set_sync_state named UNKNOWN)) by (auto with run).
    rewrite (ends_bind (os_chdir (cwd p)) _ here tt p)
      by (rewrite C; reflexivity).
    reflexivity.
  - rewrite ends_bind_assoc.
    rewrite (ends_bind_readonly (_git_revparse_commit e) _ here (st, h'))
      by (auto with run).
    destruct (negb (Z.eqb st 0)).
    + rewrite (ends_bind_readonly (ret (set_sync_state named MODEL_MODIFIED))
                 _ here (set_sync_state named MODEL_MODIFIED))
        by (auto with run).
      rewrite (ends_bind (os_chdir (cwd p)) _ here tt p)
        by (rewrite C; reflexivity).
      reflexivity.
    + rewrite (ends_bind_readonly
                 (ret (set_sync_state named (compare_refs h h'))) _ here
                 (set_sync_state named (compare_refs h h')))
        by (auto with run).
      rewrite (ends_bind (os_chdir (cwd p)) _ here tt p)
        by (rewrite C; reflexivity).
      reflexivity.
Qed.

(** X10. In a working copy that can be entered and left, for a
    declaration whose expected reference is determined (as [e]) and a
    branch listing from which the head-state parser returns a name
    ([name]): when [git log] gives no hash (its output, stripped of blanks
    and quotes, is empty), the sync check returns the report with the sync
    state UNKNOWN, the current version [name], the expected version [e]
    and the other fields as they were, whatever [e] would resolve to, and
    leaves the process as it was. *)
Theorem sync_is_unknown_without_current_hash
        (self : GitRepository) (stat : ExternalStatus)
        (repo_dir_path : string) (p : Proc W) (quoted e name : string) :
  let here := mkProc (Py.os_path_join (cwd p) repo_dir_path) (world p) in
  Py.startswith (cwd p) "/" = true ->
  is_dir (world p) (cwd p) = true ->
  is_dir (world p) (cwd here) = true ->
  result (_git_log_hash here) = Ok quoted ->
  Py.strip_chars Py.dq quoted = EMPTY_STR ->
  result (expected_ref_of self here) = Ok e ->
  result (_current_ref here) = Ok name ->
  result (_check_sync_logic self stat repo_dir_path p)
  = Ok {| sync_state := UNKNOWN;
          clean_state := clean_state stat;
          current_version := name;
          expected_version := e;
          status_output := status_output stat |}
  /\ after (_check_sync_logic self stat repo_dir_path p) = p.
Proof.
  intros here Habs Hhome Hdir Hlog Hh He Hname.
  destruct (revparse_returns e here) as (st & h' & Hrev).
  pose proof (check_sync_logic_ends self stat repo_dir_path p quoted e name
                h' st Habs Hhome Hdir Hlog He Hname Hrev) as E.
  cbv zeta in E. rewrite Hh in E. apply ends_inv in E. exact E.
Qed.

(** X11. In a working copy that can be entered and left, for a
    declaration whose expected reference is determined (as [e]) and a
    branch listing from which the head-state parser returns a name
    ([name]): when the working copy has a current hash and
    [git rev-parse] fails on [e] (non-zero status), the sync check returns
    the report with the sync state MODEL_MODIFIED, the current version
    [name], the expected version [e] and the other fields as they were -
    the hashes are not compared - and leaves the process as it was. *)
Theorem sync_is_modified_when_expected_is_unresolvable
        (self : GitRepository) (stat : ExternalStatus)
        (repo_dir_path : string) (p : Proc W)
        (quoted e name out : string) (st : Z) :
  let here := mkProc (Py.os_path_join (cwd p) repo_dir_path) (world p) in
  Py.startswith (cwd p) "/" = true ->
  is_dir (world p) (cwd p) = true ->
  is_dir (world p) (cwd here) = true ->
  result (_git_log_hash here) = Ok quoted ->
  Py.strip_chars Py.dq quoted <> EMPTY_STR ->
  result (expected_ref_of self here) = Ok e ->
  result (_current_ref here) = Ok name ->
  result (_git_revparse_commit e here) = Ok (st, out) ->
  st <> 0%Z ->
  result (_check_sync_logic self stat repo_dir_path p)
  = Ok {| sync_state := MODEL_MODIFIED;
          clean_state := clean_state stat;
          current_version := name;
          expected_version := e;
          status_output := status_output stat |}
  /\ after (_check_sync_logic self stat repo_dir_path p) = p.
Proof.
  intros here Habs Hhome Hdir Hlog Hh He Hname Hrev Hst.
  pose proof (check_sync_logic_ends self stat repo_dir_path p quoted e name
                out st Habs Hhome Hdir Hlog He Hname Hrev) as E.
  cbv zeta in E.
  rewrite (proj2 (String.eqb_neq _ _) Hh) in E.
  rewrite (proj2 (Z.eqb_neq st 0) Hst) in E.
  apply ends_inv in E. exact E.
Qed.

End Verdicts.

(** ** What a checkout runs *)

Lemma existsb_of_forallb_negb {A} (P Q : A -> bool) l :
  (forall x, Q x = negb (P x)) ->
  forallb Q l = true -> existsb P l = false.
Proof.
  intros HQ. induction l as [|x l IH]; cbn [forallb existsb]; [reflexivity|].
  intros H. apply andb_true_iff in H as [H1 H2].
  rewrite HQ in H1. apply negb_true_iff in H1.
  rewrite H1, (IH H2). reflexivity.
Qed.

Lemma split_on_single sep s :
  Py.mem_char sep s = false -> Py.split_on sep s = [s].
Proof.
  induction s as [|c r IH]; cbn [Py.mem_char Py.split_on]; [reflexivity|].
  rewrite Ascii.eqb_sym. intros H. apply orb_false_iff in H as [H1 H2].
  rewrite H1, (IH H2). reflexivity.
Qed.

Section Checkout.
Context {W : Type} `{HW : Host W} `{X : Externals}.

Ltac emits_checkout :=
  repeat first
    [ progress cbv zeta
    | emits_all_step
    | progress cbv beta iota ].

Lemma cmds_chdir path (q : Proc W) : cmds (os_chdir path q) = [].
Proof.
  unfold os_chdir.
  destruct (is_dir (world q) (Py.os_path_join (cwd q) path)); reflexivity.
Qed.

Lemma cmds_git_clone url name v (p : Proc W) :
  cmds (_git_clone url name v p) = [["git"; "clone"; url; name]].
Proof.
  unfold _git_clone. rewrite cmds_bind, cmds_execute.
  destruct (result (execute_subprocess _ false false p)); reflexivity.
Qed.

Lemma emits_no_clone_checkout_ref self repo_dir v :
  emits not_clone (_checkout_ref self repo_dir v).
Proof.
  unfold _checkout_ref, _checkout_local_ref, _checkout_external_ref,
    _check_for_valid_ref, _is_unique_tag, _ref_is_tag, _ref_is_branch,
    _ref_is_hash, _ref_is_local_branch, _ref_is_remote_branch,
    _git_showref_tag, _git_showref_branch, _git_lsremote_branch,
    _git_revparse_commit, _determine_remote_name, _git_remote_verbose,
    _create_remote_name, _git_remote_add, _git_fetch, _git_checkout_ref.
  emits_checkout.
Qed.

Lemma emits_local_checkout_local_ref self v :
  emits not_remote_cmd (_checkout_local_ref self v).
Proof.
  unfold _checkout_local_ref,
    _check_for_valid_ref, _is_unique_tag, _ref_is_tag, _ref_is_branch,
    _ref_is_hash, _ref_is_local_branch,
    _git_showref_tag, _git_showref_branch,
    _git_revparse_commit, _git_checkout_ref.
  emits_checkout.
Qed.

(** X12. [checkout] clones only a working copy that is absent: when the
    path exists, no [git clone] is run; when it does not exist and the
    base directory can be entered, the first command is
    [git clone <url> <name>] and no second clone follows. *)
Theorem checkout_clones_only_when_absent
        (self : GitRepository) (base_dir_path repo_dir_name : string)
        (verbosity : Z) (p : Proc W) :
  let repo_dir_path := Py.os_path_join base_dir_path repo_dir_name in
  let run := checkout self base_dir_path repo_dir_name verbosity p in
  (path_exists (world p) (Py.os_path_join (cwd p) repo_dir_path) = true ->
   existsb is_clone (cmds run) = false)
  /\
  (path_exists (world p) (Py.os_path_join (cwd p) repo_dir_path) = false ->
   is_dir (world p) (Py.os_path_join (cwd p) base_dir_path) = true ->
   exists rest,
     cmds run = ["git"; "clone"; _url self; repo_dir_name] :: rest
     /\ existsb is_clone rest = false).
Proof.
  intros repo_dir_path run. subst run. unfold checkout. cbv zeta.
  fold repo_dir_path.
  split.
  - intros He.
    rewrite (bind_run_ok (os_path_exists repo_dir_path) _ p true [] p)
      by (unfold os_path_exists; rewrite He; reflexivity).
    rewrite cmds_mkRun. cbn [negb app].
    rewrite (bind_run_ok (ret tt) _ p tt [] p) by reflexivity.
    rewrite cmds_mkRun. cbn [app].
    apply (existsb_of_forallb_negb is_clone not_clone);
      [reflexivity | apply emits_no_clone_checkout_ref].
  - intros He Hd.
    rewrite (bind_run_ok (os_path_exists repo_dir_path) _ p false [] p)
      by (unfold os_path_exists; rewrite He; reflexivity).
    rewrite cmds_mkRun. cbn [negb app].
    rewrite cmds_bind.
    assert (C : cmds (_clone_repo self base_dir_path repo_dir_name verbosity p)
                = [["git"; "clone"; _url self; repo_dir_name]]).
    { unfold _clone_repo.
      rewrite (bind_run_ok os_getcwd _ p (cwd p) [] p) by reflexivity.
      rewrite cmds_mkRun. cbn [app].
      rewrite (bind_run_ok (os_chdir base_dir_path) _ p tt []
                 (mkProc (Py.os_path_join (cwd p) base_dir_path) (world p)))
        by (unfold os_chdir; rewrite Hd; reflexivity).
      rewrite cmds_mkRun. cbn [app].
      rewrite cmds_bind, cmds_git_clone.
      destruct (result (_git_clone _ _ _ _)); rewrite ?cmds_chdir;
        reflexivity. }
    rewrite C. cbn [app].
    eexists. split; [reflexivity|].
    destruct (result (_clone_repo self base_dir_path repo_dir_name verbosity p));
      [|reflexivity|reflexivity].
    apply (existsb_of_forallb_negb is_clone not_clone);
      [reflexivity | apply emits_no_clone_checkout_ref].
Qed.

(** X13. A checkout whose source is the local working copy (the URL is
    the local-path sentinel) stays local: it runs no [git remote], no
    [git fetch] and no [git ls-remote], and the command after the
    validation, if the validation returns, is [git checkout] of the
    declared reference as it is written, without a remote name in front. *)
Theorem local_checkout_uses_no_remote
        (self : GitRepository) (verbosity : Z) (p : Proc W) :
  existsb is_remote_cmd (cmds (_checkout_local_ref self verbosity p)) = false
  /\ cmds (_checkout_local_ref self verbosity p)
     = (cmds (_check_for_valid_ref self (declared_ref self) None p)
        ++ match result (_check_for_valid_ref self (declared_ref self) None p)
           with
           | Ok _ => [["git"; "checkout"; declared_ref self]]
           | _ => []
           end)%list.
Proof.
  split.
  - apply (existsb_of_forallb_negb is_remote_cmd not_remote_cmd);
      [reflexivity | apply emits_local_checkout_local_ref].
  - rewrite checkout_local_ref_unfold, cmds_bind.
    destruct (result (_check_for_valid_ref self (declared_ref self) None p));
      [|reflexivity|reflexivity].
    rewrite cmds_git_checkout_ref. reflexivity.
Qed.

(** X14. A declared URL whose processed form has no path separator has no
    second-to-last segment: [_create_remote_name] raises IndexError, and
    an external checkout that finds no binding for the URL ends in that
    exception after the listing of the remotes, before any
    [git remote add], fetch or checkout. *)
Theorem remote_name_needs_two_segments
        (self : GitRepository) (verbosity : Z) (p : Proc W) :
  let path := if is_remote_url (_url self) then split_remote_url (_url self)
              else expand_local_url (_url self) (_name self) in
  Py.mem_char "/"%char path = false ->
  _create_remote_name self p = mkRun (Uncaught IndexError) [] p
  /\ (result (_determine_remote_name self p) = Ok EmptyString ->
      result (_checkout_external_ref self verbosity p) = Uncaught IndexError
      /\ cmds (_checkout_external_ref self verbosity p) = [cmd_remote_verbose]).
Proof.
  intros path Hsep.
  assert (C : _create_remote_name self p = mkRun (Uncaught IndexError) [] p).
  { unfold _create_remote_name. fold path.
    rewrite (split_on_single _ _ Hsep). reflexivity. }
  split; [exact C|].
  intros Hd.
  unfold _checkout_external_ref. cbv zeta.
  rewrite (bind_ok_readonly (_determine_remote_name self) _ p EmptyString)
    by (auto with run).
  rewrite result_mkRun, cmds_mkRun, cmds_determine_remote_name.
  cbn [Py.truthy negb].
  assert (B : forall (A : Type) (k : string -> M W A),
             bind (remote_name <- _create_remote_name self ;;
                   _git_remote_add remote_name (_url self) ;;
                   ret remote_name) k p
             = mkRun (Uncaught IndexError) [] p).
  { intros A k.
    assert (I : (remote_name <- _create_remote_name self ;;
                 _git_remote_add remote_name (_url self) ;;
                 ret remote_name) p
                = mkRun (Uncaught IndexError) [] p).
    { rewrite (bind_uncaught (_create_remote_name self) _ p IndexError)
        by (rewrite C; reflexivity).
      rewrite C. reflexivity. }
    rewrite (bind_uncaught _ k p IndexError) by (rewrite I; reflexivity).
    rewrite I. reflexivity. }
  rewrite B. split; reflexivity.
Qed.

End Checkout.

(** ** Reading the listing of the remotes *)

Lemma one_token_inv s :
  one_token s = true -> Py.truthy s = true /\ all_chars not_space s = true.
Proof. unfold one_token. intros H. apply andb_true_iff in H. exact H. Qed.

(** a token followed by a blank is the first token of the text *)
Lemma split_token_then_blank tok d s :
  one_token tok = true -> Py.isspace d = true ->
  Py.split (tok ++ String d s) = tok :: Py.split (String d s).
Proof.
  intros Htok Hd. apply one_token_inv in Htok as [Ht Ha].
  induction tok as [|c r IH]; [discriminate Ht|].
  cbn [all_chars] in Ha. apply andb_true_iff in Ha as [Hc Hr].
  unfold not_space in Hc. apply negb_true_iff in Hc.
  destruct r as [|c2 r2].
  - cbn [append]. cbn [Py.split]. rewrite Hc, Hd. reflexivity.
  - specialize (IH eq_refl Hr).
    change ((String c (String c2 r2)) ++ String d s)
      with (String c (String c2 r2 ++ String d s)).
    assert (Hc2 : Py.isspace c2 = false).
    { cbn [all_chars] in Hr. apply andb_true_iff in Hr as [Hc2 _].
      unfold not_space in Hc2. apply negb_true_iff in Hc2. exact Hc2. }
    remember (String c2 r2 ++ String d s) as t eqn:Et.
    assert (Hhead : exists t', t = String c2 t').
    { rewrite Et. eexists. reflexivity. }
    destruct Hhead as [t' Et'].
    cbn [Py.split]. rewrite Hc. rewrite Et' at 1. rewrite Hc2.
    rewrite IH. reflexivity.
Qed.

Lemma rstrip_by_append_clean p a b :
  Py.truthy b = true -> all_chars (fun c => negb (p c)) b = true ->
  Py.rstrip_by p (a ++ b) = a ++ b.
Proof.
  intros Hb Ab. induction a as [|c a IH]; cbn [append].
  - apply rstrip_by_clean. exact Ab.
  - cbn [Py.rstrip_by]. rewrite IH.
    destruct (a ++ b) as [|d t] eqn:E; [|reflexivity].
    destruct a; [|discriminate E]. cbn [append] in E. subst b.
    discriminate Hb.
Qed.

Lemma remote_line_strip kind n u :
  one_token n = true ->
  Py.strip (remote_line kind (n, u)) = remote_line kind (n, u).
Proof.
  intros Hn. apply one_token_inv in Hn as [Ht Ha].
  unfold Py.strip, remote_line. cbn [fst snd].
  assert (L : Py.lstrip_by Py.isspace
                (n ++ tab ++ u ++ " (" ++ kind ++ ")")
              = n ++ tab ++ u ++ " (" ++ kind ++ ")").
  { destruct n as [|c r]; [discriminate Ht|].
    cbn [all_chars] in Ha. apply andb_true_iff in Ha as [Hc _].
    unfold not_space in Hc. apply negb_true_iff in Hc.
    cbn [append Py.lstrip_by]. rewrite Hc. reflexivity. }
  rewrite L.
  rewrite <- !append_assoc_string.
  apply rstrip_by_append_clean; reflexivity.
Qed.

Lemma remote_line_split kind n u :
  one_token n = true -> one_token u = true ->
  exists more, Py.split (remote_line kind (n, u)) = n :: u :: more.
Proof.
  intros Hn Hu. unfold remote_line, tab. cbn [fst snd].
  change (String Py.TAB EmptyString ++ u ++ " (" ++ kind ++ ")")
    with (String Py.TAB (u ++ " (" ++ kind ++ ")")).
  rewrite (split_token_then_blank n Py.TAB _ Hn eq_refl).
  assert (S : Py.split (String Py.TAB (u ++ " (" ++ kind ++ ")"))
              = Py.split (u ++ " (" ++ kind ++ ")")) by reflexivity.
  rewrite S.
  change (" (" ++ kind ++ ")") with (String " " ("(" ++ kind ++ ")")).
  rewrite (split_token_then_blank u " " _ Hu eq_refl).
  eexists. reflexivity.
Qed.

Lemma remote_line_truthy kind n u :
  one_token n = true -> Py.truthy (remote_line kind (n, u)) = true.
Proof.
  intros Hn. apply one_token_inv in Hn as [Ht _].
  unfold remote_line. cbn [fst]. destruct n; [discriminate Ht | reflexivity].
Qed.

Lemma first_bound_truthy url bindings n :
  Forall (fun b => one_token (fst b) = true /\ one_token (snd b) = true)
    bindings ->
  In (n, url) bindings ->
  Py.truthy (first_bound url bindings) = true.
Proof.
  induction bindings as [|[m u] rest IH]; intros F I; [destruct I|].
  inversion F as [|? ? [Hm _] Frest]; subst. cbn [first_bound].
  destruct (String.eqb_spec url u) as [->|N].
  - cbn [fst] in Hm. apply one_token_inv in Hm. tauto.
  - destruct I as [E|I]; [injection E as _ E; congruence|].
    exact (IH Frest I).
Qed.

(** a step that returns without a command and without touching the
    process is transparent *)
Lemma bind_silent {W A B} (c : M W A) (f : A -> M W B) p a :
  c p = mkRun (Ok a) [] p -> bind c f p = f a p.
Proof.
  intros E. unfold bind. rewrite E. cbn [result cmds after app].
  destruct (f a p); reflexivity.
Qed.

Section RemoteListing.
Context {W : Type} `{HW : Host W} `{X : Externals}.

(** one line of the listing: a match returns the name, anything else goes
    on to the next line *)
Lemma scan_remotes_line url kind n u rest (p : Proc W) :
  one_token n = true -> one_token u = true ->
  scan_remotes url (remote_line kind (n, u) :: rest) p
  = if String.eqb url u then ret n p else scan_remotes url rest p.
Proof.
  intros Hn Hu. cbn [scan_remotes].
  rewrite (remote_line_strip kind n u Hn), (remote_line_truthy kind n u Hn).
  cbn [negb].
  destruct (remote_line_split kind n u Hn Hu) as [more ->].
  rewrite (bind_silent (index (n :: u :: more) 0) _ p n) by reflexivity.
  rewrite (bind_silent (index (n :: u :: more) 1) _ p u) by reflexivity.
  rewrite (strip_clean n (proj2 (one_token_inv n Hn))).
  rewrite (strip_clean u (proj2 (one_token_inv u Hu))).
  destruct (String.eqb url u); reflexivity.
Qed.

Lemma scan_remotes_lines url bindings (p : Proc W) :
  Forall (fun b => one_token (fst b) = true /\ one_token (snd b) = true)
    bindings ->
  scan_remotes url (remote_lines bindings) p
  = ret (first_bound url bindings) p.
Proof.
  induction bindings as [|[n u] rest IH]; intros F; [reflexivity|].
  inversion F as [|? ? [Hn Hu] Frest]; subst. cbn [fst snd] in Hn, Hu.
  cbn [remote_lines first_bound].
  rewrite (scan_remotes_line url "fetch" n u _ p Hn Hu).
  destruct (String.eqb url u) eqn:E; [reflexivity|].
  rewrite (scan_remotes_line url "push" n u _ p Hn Hu), E.
  exact (IH Frest).
Qed.

(** X15. When the lines of [git remote --verbose] are the fetch and push
    lines of a list of bindings whose names and URLs are single tokens
    (not empty, no whitespace), [_determine_remote_name] returns the name
    of the first binding whose URL is the declared URL, and the empty
    string when there is none; and an external checkout of a URL that
    some binding has registers no new binding. *)
Theorem determine_remote_name_reads_bindings
        (self : GitRepository) (verbosity : Z) (p : Proc W)
        (bindings : list (string * string)) :
  Forall (fun b => one_token (fst b) = true /\ one_token (snd b) = true)
    bindings ->
  Py.splitlines (snd (query (world p) (cwd p) cmd_remote_verbose))
  = remote_lines bindings ->
  _determine_remote_name self p
  = mkRun (Ok (first_bound (_url self) bindings)) [cmd_remote_verbose] p
  /\ ((exists name, In (name, _url self) bindings) ->
      existsb is_remote_add (cmds (_checkout_external_ref self verbosity p))
      = false).
Proof.
  intros F L.
  assert (D : _determine_remote_name self p
              = mkRun (Ok (first_bound (_url self) bindings))
                  [cmd_remote_verbose] p).
  { unfold _determine_remote_name.
    rewrite (bind_run_ok _git_remote_verbose _ p
               (snd (query (world p) (cwd p) cmd_remote_verbose))
               [cmd_remote_verbose] p) by reflexivity.
    cbv zeta. rewrite L, (scan_remotes_lines _ _ p F). reflexivity. }
  split; [exact D|].
  intros [name I].
  apply (proj1 (remote_add_only_when_no_binding_is_found self verbosity p
                  (first_bound (_url self) bindings)
                  ltac:(rewrite D; reflexivity))).
  exact (first_bound_truthy _ _ name F I).
Qed.

End RemoteListing.

(** ** The external checkout and the reference the sync check expects *)
Section CheckoutTarget.
Context {W : Type} `{HW : Host W} `{X : Externals}.

Lemma result_bind_readonly {A B} (c : M W A) (f : A -> M W B) p a :
  readonly c -> result (c p) = Ok a ->
  result (bind c f p) = result (f a p).
Proof.
  intros R E. exact (f_equal fst (ends_bind_readonly c f p a R E)).
Qed.

Lemma cmds_git_fetch rn (p : Proc W) :
  cmds (_git_fetch rn p) = [["git"; "fetch"; "--tags"; rn]].
Proof.
  unfold _git_fetch. rewrite cmds_bind, cmds_execute.
  destruct (result (execute_subprocess _ false false p)); reflexivity.
Qed.

(** X16. An external checkout that finds the binding [name] for the
    declared URL and returns has run, in this order: the listing of the
    remotes, [git fetch --tags name], the validation probes, and
    [git checkout] of the declared reference, with [name/] in front of it
    when a branch is declared. When exactly one of branch, tag and hash
    is declared, that checked-out reference is the reference the sync
    check expects. *)
Theorem external_checkout_order_and_target
        (self : GitRepository) (verbosity : Z) (p : Proc W) (name : string) :
  let ref := declared_ref self in
  let target := if Py.truthy (_branch self) then name ++ "/" ++ ref else ref in
  result (_determine_remote_name self p) = Ok name ->
  Py.truthy name = true ->
  (returned (result (_checkout_external_ref self verbosity p)) = true ->
   cmds (_checkout_external_ref self verbosity p)
   = (cmd_remote_verbose
      :: ["git"; "fetch"; "--tags"; name]
      :: cmds (_check_for_valid_ref self ref (Some name)
                 (after (_git_fetch name p)))
      ++ [["git"; "checkout"; target]])%list)
  /\
  (String.eqb (_url self) LOCAL_PATH_INDICATOR = false ->
   (Py.truthy (_branch self) = true /\ Py.truthy (_tag self) = false
    \/ Py.truthy (_branch self) = false /\ Py.truthy (_tag self) = false
       /\ Py.truthy (_hash self) = true
    \/ Py.truthy (_branch self) = false /\ Py.truthy (_tag self) = true
       /\ Py.truthy (_hash self) = false) ->
   result (expected_ref_of self p) = Ok target).
Proof.
  intros ref target Hd Hn. split.
  - unfold _checkout_external_ref. cbv zeta. fold (declared_ref self).
    fold ref. 
    rewrite (bind_ok_readonly (_determine_remote_name self) _ p name)
      by (auto with run).
    rewrite result_mkRun, cmds_mkRun, cmds_determine_remote_name.
    rewrite Hn. cbn [negb].
    rewrite (bind_silent (ret name) _ p name) by reflexivity.
    fold target.
    intros R.
    apply bind_returned in R as (u & Rf & R).
    apply bind_returned in R as (b & Rv & _).
    rewrite (bind_ok _ _ p u Rf), cmds_mkRun, cmds_git_fetch.
    rewrite (bind_ok _ _ _ b Rv), cmds_mkRun, cmds_git_checkout_ref.
    reflexivity.
  - intros Hurl Hone. unfold expected_ref_of. rewrite Hurl.
    subst target ref. unfold declared_ref.
    destruct Hone as [[Hb Ht]|[(Hb & Ht & Hh)|(Hb & Ht & Hh)]].
    + rewrite Hb, Ht.
      rewrite (result_bind_readonly (_determine_remote_name self) _ p name)
        by (auto with run).
      rewrite Hn. reflexivity.
    + rewrite Hb, Ht, Hh. reflexivity.
    + rewrite Hb, Ht, Hh. reflexivity.
Qed.

End CheckoutTarget.

(** *** Instances on the sample working copies *)

Lemma validation_verdict_witness :
  result (_check_for_valid_ref master_decl "nothing" None
            (mkProc "/work/ext" tagged_world))
  = Fatal (msg_invalid_ref master_decl "nothing").
Proof.
  apply (validation_is_decided_by_the_probes (HW := script_host) master_decl
           "nothing" None (mkProc "/work/ext" tagged_world) false false false);
    reflexivity.
Defined.

Lemma sync_unknown_witness :
  result (_check_sync_logic (X := sample_externals) master_decl stat0 "ext"
            (mkProc "/work"
               (listing_world (line "* master 9b75494 Initialize repository."))))
  = Ok {| sync_state := UNKNOWN; clean_state := DEFAULT;
          current_version := "master";
          expected_version := "unknown_remote/master";
          status_output := EmptyString |}.
Proof.
  apply (sync_is_unknown_without_current_hash (X := sample_externals)
           master_decl stat0 "ext"
           (mkProc "/work"
              (listing_world (line "* master 9b75494 Initialize repository.")))
           EmptyString "unknown_remote/master" "master");
    reflexivity.
Defined.

Lemma sync_modified_witness :
  result (_check_sync_logic (X := sample_externals) missing_tag_decl stat0
            "ext" (mkProc "/work" tagged_world))
  = Ok {| sync_state := MODEL_MODIFIED; clean_state := DEFAULT;
          current_version := "v1.0"; expected_version := "v2.0";
          status_output := EmptyString |}.
Proof.
  apply (sync_is_modified_when_expected_is_unresolvable
           (X := sample_externals) missing_tag_decl stat0 "ext"
           (mkProc "/work" tagged_world)
           (Py.dq ++ a_hash ++ Py.dq) "v2.0" "v1.0" EmptyString 1%Z);
    try reflexivity; discriminate.
Defined.

Lemma checkout_clone_witness :
  existsb is_clone
    (cmds (checkout (X := sample_externals) master_decl "/work" "ext" 0%Z
             (mkProc "/work" tagged_world))) = false
  /\ exists rest,
       cmds (checkout (X := sample_externals) master_decl "/work" "new" 0%Z
               (mkProc "/work" tagged_world))
       = ["git"; "clone"; "https://example/repo.git"; "new"] :: rest
       /\ existsb is_clone rest = false.
Proof.
  split.
  - apply (proj1 (checkout_clones_only_when_absent (X := sample_externals)
                    master_decl "/work" "ext" 0%Z
                    (mkProc "/work" tagged_world))).
    reflexivity.
  - apply (proj2 (checkout_clones_only_when_absent (X := sample_externals)
                    master_decl "/work" "new" 0%Z
                    (mkProc "/work" tagged_world)));
      reflexivity.
Defined.

Lemma remote_name_index_error_witness :
  result (_checkout_external_ref (X := sample_externals) bare_url_decl 0%Z
            (mkProc "/work/ext" tagged_world)) = Uncaught IndexError
  /\ cmds (_checkout_external_ref (X := sample_externals) bare_url_decl 0%Z
             (mkProc "/work/ext" tagged_world)) = [cmd_remote_verbose].
Proof.
  apply (proj2 (remote_name_needs_two_segments (X := sample_externals)
                  bare_url_decl 0%Z (mkProc "/work/ext" tagged_world)
                  ltac:(reflexivity)));
    reflexivity.
Defined.

Lemma determine_remote_name_witness :
  _determine_remote_name master_decl (mkProc "/work/ext" tagged_world)
  = mkRun (Ok "origin") [cmd_remote_verbose]
      (mkProc "/work/ext" tagged_world).
Proof.
  apply (proj1 (determine_remote_name_reads_bindings (X := sample_externals)
                  master_decl 0%Z (mkProc "/work/ext" tagged_world)
                  [("origin", "https://example/repo.git")]
                  ltac:(repeat constructor) ltac:(reflexivity))).
Defined.

Lemma external_checkout_witness :
  cmds (_checkout_external_ref (X := sample_externals) master_decl 0%Z
          (mkProc "/work/ext" tagged_world))
  = [ cmd_remote_verbose;
      ["git"; "fetch"; "--tags"; "origin"];
      cmd_showref_tag "master";
      cmd_lsremote "master" "origin";
      cmd_showref_branch "master";
      cmd_revparse "master";
      ["git"; "checkout"; "origin/master"] ]
  /\ result (expected_ref_of (X := sample_externals) master_decl
               (mkProc "/work/ext" tagged_world)) = Ok "origin/master".
Proof.
  destruct (external_checkout_order_and_target (HW := script_host)
              (X := sample_externals) master_decl 0%Z (mkProc "/work/ext" tagged_world) "origin"
              ltac:(reflexivity) ltac:(reflexivity)) as [C E].
  split.
  - rewrite (C ltac:(reflexivity)). reflexivity.
  - apply E; [reflexivity | left; split; reflexivity].
Defined.
